(** * Two training scripts: [ML/gtsdb/train.py] and
      [ML/mnist/many-classifiers/python.py]

    Both programs are sequential drivers of machine-learning libraries.
    They are embedded as programs of a small monad that records every
    library call and every line written to standard output, and that
    propagates a raised exception to the caller, as Python does for code
    without [try]/[except].  The libraries themselves (numpy, keras,
    scikit-learn, skflow, the clock) are a record of response functions,
    the "world"; every statement below is proved for all worlds. *)

From Stdlib Require Import ZArith List String Ascii Lia.
From Stdlib Require Import Floats.SpecFloat DecimalString DecimalN.
From stdpp Require Import gmap strings list sorting.

Open Scope Z_scope.

(** ** Python values used by the scripts *)

Module Py.

(** Python's [float] is IEEE binary64. *)
Definition prec : Z := 53.
Definition emax : Z := 1024.
Definition float : Type := spec_float.

Definition of_Z (n : Z) : float := binary_normalize prec emax n 0 false.

(** The decimal literal [m * 10^-k], e.g. [0.9] is [lit 9 1]: both operands
    are exact, so the correctly rounded quotient is the literal's value. *)
Definition lit (m : Z) (k : nat) : float :=
  SFdiv prec emax (of_Z m) (of_Z (10 ^ Z.of_nat k)).

Definition fsub : float → float → float := SFsub prec emax.
Definition fmul : float → float → float := SFmul prec emax.
Definition fdiv : float → float → float := SFdiv prec emax.
Definition flt : float → float → bool := SFltb.

(** Characters that cannot be written inside a string literal. *)
Definition tab : string := String (ascii_of_nat 9) EmptyString.
Definition nl : string := String (ascii_of_nat 10) EmptyString.
Definition dq : string := String (ascii_of_nat 34) EmptyString.

Definition str_nat (n : nat) : string :=
  NilZero.string_of_uint (Nat.to_uint n).
Definition str_Z (n : Z) : string :=
  NilZero.string_of_uint (N.to_uint (Z.to_N n)).

(** [s * n] on strings. *)
Fixpoint str_times (s : string) (n : nat) : string :=
  match n with
  | O => EmptyString
  | S n' => s +:+ str_times s n'
  end.

(** *** ["%0.4f" % x] *)

Definition round_half_even (num den : Z) : Z :=
  let q := num / den in
  match 2 * (num mod den) ?= den with
  | Lt => q
  | Gt => q + 1
  | Eq => if Z.even q then q else q + 1
  end.

Definition digit (d : Z) : ascii := ascii_of_nat (48 + Z.to_nat d).

Definition frac4 (r : Z) : string :=
  String (digit (r / 1000 mod 10))
    (String (digit (r / 100 mod 10))
      (String (digit (r / 10 mod 10))
        (String (digit (r mod 10)) EmptyString))).

Definition sign (s : bool) : string := if s then "-" else "".

Definition format_0_4f (x : float) : string :=
  match x with
  | S754_nan => "nan"
  | S754_infinity s => sign s +:+ "inf"
  | S754_zero s => sign s +:+ "0.0000"
  | S754_finite s m e =>
      let scaled :=
        match e with
        | Zneg p => round_half_even (Zpos m * 10000) (2 ^ Zpos p)
        | _ => Zpos m * 10000 * 2 ^ e
        end in
      sign s +:+ str_Z (scaled / 10000) +:+ "." +:+ frac4 (scaled mod 10000)
  end.

(** *** Exceptions and results *)

Inductive exn : Type := Exception (msg : string).

Inductive result (A : Type) : Type :=
| Ok (a : A)
| Raise (e : exn).
Arguments Ok {A} a.
Arguments Raise {A} e.

Definition raised {A} (r : result A) : option exn :=
  match r with
  | Ok _ => None
  | Raise e => Some e
  end.

End Py.

(** ** Library calls, events and the program monad *)

Module Lib.
Import Py.

(** A row of a two-dimensional data set (one flattened image). *)
Definition sample : Type := list float.

(** A numpy array: its shape and its cells in row-major order. *)
Record ndarray : Type := { shape : list nat; flat : list float }.

(** The two model functions of python.py handed to skflow; their bodies
    only assemble a TensorFlow graph (a dense net with hidden layers
    500:200 and dropout 0.5; two convolution/pooling stages and a dense
    layer of 1024 units). *)
Inductive model_fn : Type := dropout_model | conv_model.

(** The classifier objects python.py constructs, with the arguments it
    gives; [None] is an argument left at the library's default. *)
Inductive estimator : Type :=
| TensorFlowDNNClassifier (hidden_units : list Z) (n_classes steps : Z)
| TensorFlowEstimator (fn : model_fn) (n_classes : Z)
    (batch_size : option Z) (steps : Z) (learning_rate : option float)
| SVC (probability : option bool) (kernel : string) (C : float)
    (gamma : option float) (cache_size : Z)
| KNeighborsClassifier (n_neighbors : Z)
| DecisionTreeClassifier (max_depth : Z)
| RandomForestClassifier (max_depth : option Z) (n_estimators : Z)
    (max_features : option Z) (n_jobs : Z)
| AdaBoostClassifier
| GaussianNB
| GradientBoostingClassifier.

(** Arguments of [densenet.create_dense_net] in train.py. *)
Record dense_net_args : Type := {
  nb_classes : Z;
  input_shape : list Z;
  depth : Z;
  nb_dense_block : Z;
  growth_rate : Z;
  nb_filter : Z;
  bottleneck : bool;
  reduction : float;
  dropout_rate : float }.

Record image_data_generator : Type := {
  featurewise_center : bool;
  samplewise_center : bool;
  featurewise_std_normalization : bool;
  samplewise_std_normalization : bool;
  zca_whitening : bool;
  rotation_range : Z;
  width_shift_range : float;
  height_shift_range : float;
  horizontal_flip : bool;
  vertical_flip : bool }.

Record model_checkpoint : Type := {
  filepath : string;
  monitor : string;
  save_best_only : bool;
  save_weights_only : bool }.

(** [datagen.flow(X, Y, batch_size=...)] *)
Record flow : Type := {
  flow_datagen : image_data_generator;
  flow_X : ndarray;
  flow_Y : ndarray;
  flow_batch_size : Z }.

Record fit_generator_args : Type := {
  generator : flow;
  samples_per_epoch : nat;
  fg_nb_epoch : Z;
  fg_validation_data : ndarray * ndarray;
  callbacks : list model_checkpoint }.

Record fit_args : Type := {
  fit_X : ndarray;
  fit_Y : ndarray;
  fit_batch_size : Z;
  fit_nb_epoch : Z;
  fit_validation_data : ndarray * ndarray;
  fit_shuffle : bool }.

Record compile_args : Type := {
  loss_name : string;
  optimizer_lr : float;
  metrics : list string }.

(** Every call the two scripts make into a library, with the arguments
    that identify it. *)
Inductive libcall : Type :=
(* python.py *)
| FetchMldata (name : string)
| Shuffle (random_state : Z)
| TrainTestSplit (test_size : float) (random_state : Z)
| TimeTime
| Fit (clf_name : string) (clf : estimator) (X : list sample) (y : list float)
| Predict (clf_name : string) (X : list sample)
| ConfusionMatrix (y_true y_pred : list float)
| AccuracyScore (y_true y_pred : list float)
(* train.py *)
| NpRandomSeed (seed : Z)
| LoadData
| ToCategorical (y : ndarray) (n : Z)
| NpLoad (path : string)
| ImageDimOrdering
| CreateModel (n : Z) (input_shape : list Z)
| CreateDenseNet (a : dense_net_args)
| Summary
| Compile (a : compile_args)
| ModelFit (a : fit_args)
| DatagenFit (X : ndarray) (seed : Z)
| FitGenerator (a : fit_generator_args)
| OpenWrite (path : string)
| Writerows (path : string) (rows : list (list string))
| CloseFile (path : string)
| Save (path : string).

(** What an observer of a run sees: a line on standard output, or a
    library call together with the exception it raised, if any. *)
Inductive event : Type :=
| Stdout (line : string)
| Call (c : libcall) (exc : option exn).

(** A program is given the number of library calls made so far (the
    libraries may answer differently from call to call) and yields its
    events, its result and the new call count. *)
Definition M (A : Type) : Type := nat → list event * result A * nat.

Definition ret {A} (a : A) : M A := λ n, ([], Ok a, n).

Definition bind {A B} (m : M A) (k : A → M B) : M B :=
  λ n,
    match m n with
    | (t1, Ok a, n1) =>
        match k a n1 with
        | (t2, r, n2) => (t1 ++ t2, r, n2)
        end
    | (t1, Raise e, n1) => (t1, Raise e, n1)
    end.

Definition print (line : string) : M unit := λ n, ([Stdout line], Ok tt, n).

(** A library call: the world's answer to call number [n]. *)
Definition call {A} (c : libcall) (answer : nat → result A) : M A :=
  λ n, ([Call c (raised (answer n))], answer n, S n).

Notation "'let!' x ':=' m 'in' k" := (bind m (λ x, k))
  (at level 10, x name, m at level 100, k at level 200,
   format "'[v' 'let!'  x  :=  m  'in' '/' k ']'").
Notation "m >> k" := (bind m (λ _, k))
  (at level 100, k at level 200, right associativity,
   format "'[v' m  >> '/' k ']'").

(** [for x in l: acc = body(acc, x)] *)
Fixpoint for_each {A S} (l : list A) (body : S → A → M S) (acc : S) : M S :=
  match l with
  | [] => ret acc
  | x :: l' => let! acc' := body acc x in for_each l' body acc'
  end.

Definition trace_of {A} (m : M A) : list event := (m 0%nat).1.1.
Definition result_of {A} (m : M A) : result A := (m 0%nat).1.2.

(** [range(start, stop, step)] for a positive step. *)
Fixpoint range_from (fuel start stop step : nat) : list nat :=
  match fuel with
  | O => []
  | S fuel' =>
      if (start <? stop)%nat
      then start :: range_from fuel' (start + step) stop step
      else []
  end.
Definition range (start stop step : nat) : list nat :=
  range_from stop start stop step.

(** [l[lo:hi]] for non-negative bounds. *)
Definition slice {A} (l : list A) (lo hi : nat) : list A :=
  take (hi - lo) (drop lo l).

End Lib.

(** ** python.py: a dozen classifiers on MNIST *)

Module Mnist.
Import Py Lib.

(** [{'X': ..., 'y': ...}] and [{'train': ..., 'test': ...}] *)
Record xy : Type := { X : list sample; y : list float }.
Record dataset : Type := { train : xy; test : xy }.

(** The value of [classifier_data[clf_name]], and the dictionary that
    [analyze] returns. *)
Record clf_data : Type := {
  training_time : float;
  testing_time : float;
  accuracy : float }.
Record results : Type := {
  res_testing_time : float;
  res_accuracy : float }.

Definition cmatrix : Type := list (list Z).

(** The libraries python.py runs against.  [fitted] is the state of a
    classifier object after [fit]. *)
Record world : Type := {
  fitted : Type;
  fetch_mldata : nat → string → result xy;
  shuffle : nat → list sample → list float → Z →
            result (list sample * list float);
  train_test_split : nat → list sample → list float → float → Z →
            result (list sample * list sample * list float * list float);
  time : nat → float;
  fit : nat → estimator → list sample → list float → result fitted;
  predict : nat → fitted → list sample → result (list float);
  confusion_matrix : nat → list float → list float → result cmatrix;
  accuracy_score : nat → list float → list float → result float;
  str_float : float → string;
  str_matrix : cmatrix → string }.

Section Script.
Variable w : world.

Definition time_time : M float := call TimeTime (λ n, Ok (time w n)).

(** [x/255.0*2 - 1], elementwise. *)
Definition scale (x : list sample) : list sample :=
  map (map (λ v, fsub (fmul (fdiv v (of_Z 255)) (of_Z 2)) (of_Z 1))) x.

(** [get_data()]; [simple] is [False], so the original dataset is loaded. *)
Definition get_data : M dataset :=
  let! mnist := call (FetchMldata "MNIST original")
                     (λ n, fetch_mldata w n "MNIST original") in
  let x := X mnist in
  let y := y mnist in
  let x := scale x in
  let! xy := call (Shuffle 0) (λ n, shuffle w n x y 0) in
  let x := xy.1 in
  let y := xy.2 in
  let! s := call (TrainTestSplit (lit 33 2) 42)
                 (λ n, train_test_split w n x y (lit 33 2) 42) in
  let '(x_train, x_test, y_train, y_test) := s in
  ret {| train := {| X := x_train; y := y_train |};
         test := {| X := x_test; y := y_test |} |}.

(** The loop of [analyze] that predicts the test set "in chunks of size
    128": [predicted] starts as the empty array and every chunk's
    predictions are appended to it. *)
Definition predict_chunks (clf : fitted w) (clf_name : string)
    (test_X : list sample) : M (list float) :=
  for_each (range 0 (length test_X) 128)
    (λ predicted i,
       let chunk := slice test_X i (i + 128) in
       let! predicted_single :=
         call (Predict clf_name chunk) (λ n, predict w n clf chunk) in
       ret (predicted ++ predicted_single))
    [].

(** [analyze(clf, data, fit_time, clf_name)] *)
Definition analyze (clf : fitted w) (data : dataset) (fit_time : float)
    (clf_name : string) : M results :=
  let! t0 := time_time in
  let! predicted := predict_chunks clf clf_name (X (test data)) in
  let! t1 := time_time in
  let testing_time := fsub t1 t0 in
  print ("Classifier: " +:+ clf_name) >>
  print ("Training time: " +:+ format_0_4f fit_time +:+ "s") >>
  print ("Testing time: " +:+ format_0_4f testing_time +:+ "s") >>
  let! cm := call (ConfusionMatrix (y (test data)) predicted)
                  (λ n, confusion_matrix w n (y (test data)) predicted) in
  print ("Confusion matrix:" +:+ nl +:+ str_matrix w cm) >>
  let! acc := call (AccuracyScore (y (test data)) predicted)
                   (λ n, accuracy_score w n (y (test data)) predicted) in
  print ("Accuracy: " +:+ format_0_4f acc) >>
  ret {| res_testing_time := testing_time; res_accuracy := acc |}.

Definition table_head : string :=
  "<table>" +:+ nl +:+
  "  <thead>" +:+ nl +:+
  "    <tr>" +:+ nl +:+
  "        <th>Classifier</th>" +:+ nl +:+
  "        <th>Accuracy</th>" +:+ nl +:+
  "        <th>Training Time</th>" +:+ nl +:+
  "        <th>Testing Time</th>" +:+ nl +:+
  "    </tr>" +:+ nl +:+
  "  </thead>" +:+ nl +:+
  "  <tbody>".

Definition danger_msg : string := "class=" +:+ dq +:+ "danger" +:+ dq.

Definition td_right : string := tab +:+ "<td align=" +:+ dq +:+ "right" +:+ dq.

(** [sorted(data.items())]: the keys of a dictionary are distinct, so the
    order of the pairs is the order of their names. *)
Definition item_le (a b : string * clf_data) : Prop := String.le a.1 b.1.

#[global] Instance item_le_dec : RelDecision item_le.
Proof. intros a b. unfold item_le. apply _. Defined.

Definition sorted_items (data : gmap string clf_data)
    : list (string * clf_data) :=
  merge_sort item_le (map_to_list data).

(** The five lines of one table row. *)
Definition print_row (item : string * clf_data) : M unit :=
  let clf_name := item.1 in
  let clf_data := item.2 in
  let acc_msg := "" in
  let test_msg := "" in
  let acc_msg :=
    if flt (accuracy clf_data) (lit 9 1) then danger_msg else acc_msg in
  let test_msg :=
    if flt (of_Z 5) (testing_time clf_data) then danger_msg else test_msg in
  print "<tr>" >>
  print (tab +:+ "<td>" +:+ clf_name +:+ "</td>") >>
  print (td_right +:+ " " +:+ acc_msg +:+ ">" +:+
         str_float w (accuracy clf_data) +:+ "%</td>") >>
  print (td_right +:+ ">" +:+ str_float w (training_time clf_data) +:+
         "s</td>") >>
  print (td_right +:+ " " +:+ test_msg +:+ ">" +:+
         str_float w (testing_time clf_data) +:+ "s</td>") >>
  print "</tr>".

(** [print_website(data)] *)
Definition print_website (data : gmap string clf_data) : M unit :=
  print table_head >>
  for_each (sorted_items data) (λ _ item, print_row item) tt >>
  print "</tbody>" >>
  print "</table>".

Definition classifiers : list (string * estimator) :=
  [ ("NN 500:200", TensorFlowDNNClassifier [500; 200] 10 20000);
    ("NN 500:200 dropout",
     TensorFlowEstimator dropout_model 10 None 20000 None);
    ("CNN", TensorFlowEstimator conv_model 10 (Some 100) 20000
                                (Some (lit 1 3)));
    ("adj. SVM", SVC (Some false) "rbf" (lit 28 1) (Some (lit 73 4)) 2000);
    ("linear SVM", SVC None "linear" (lit 25 3) None 2000);
    ("k nn", KNeighborsClassifier 3);
    ("Decision Tree", DecisionTreeClassifier 5);
    ("Random Forest", RandomForestClassifier None 50 None 10);
    ("Random Forest 2", RandomForestClassifier (Some 5) 10 (Some 1) 10);
    ("AdaBoost", AdaBoostClassifier);
    ("Naive Bayes", GaussianNB);
    ("Gradient Boosting", GradientBoostingClassifier) ].

(** The body of the loop "Fit them all". *)
Definition fit_one (data : dataset) (classifier_data : gmap string clf_data)
    (c : string * estimator) : M (gmap string clf_data) :=
  let clf_name := c.1 in
  let clf := c.2 in
  print (str_times "#" 80) >>
  print ("Start fitting '" +:+ clf_name +:+ "' classifier.") >>
  let examples := 100000 in
  let! t0 := time_time in
  let train_X := take (Z.to_nat examples) (X (train data)) in
  let train_y := take (Z.to_nat examples) (y (train data)) in
  let! clf := call (Fit clf_name clf train_X train_y)
                   (λ n, fit w n clf train_X train_y) in
  let! t1 := time_time in
  let! an_data := analyze clf data (fsub t1 t0) clf_name in
  ret (<[clf_name := {| training_time := fsub t1 t0;
                        testing_time := res_testing_time an_data;
                        accuracy := res_accuracy an_data |}]>
       classifier_data).

(** [main()] *)
Definition main : M unit :=
  let! data := get_data in
  let! classifier_data := for_each classifiers (fit_one data) ∅ in
  print_website classifier_data.

End Script.
End Mnist.

(** ** train.py: a DenseNet on the traffic-sign data *)

Module Gtsdb.
Import Py Lib.

(** Modelled from the spec: the constant [gtsdb.n_classes] of the module
    [gtsdb], which train.py imports and which is not among the sources.
    The specification calls the data "a 100-class image dataset" (and the
    docstring of train.py reads "Train a CNN on CIFAR 100"). *)
Definition n_classes : Z := 100.

(** [gtsdb.load_data()] returns a dictionary; the script reads two keys. *)
Record gtsdb_data : Type := { x_train : ndarray; y_train : ndarray }.

(** [history_callback.history], of which the script reads three keys. *)
Record history : Type := {
  loss : list float;
  acc : list float;
  val_acc : list float }.

(** The libraries train.py runs against.  [model] is a keras model. *)
Record world : Type := {
  model : Type;
  load_data : nat → result gtsdb_data;
  to_categorical : nat → ndarray → Z → result ndarray;
  np_load : nat → string → result ndarray;
  image_dim_ordering : nat → result string;
  create_model : nat → Z → list Z → result model;
  create_dense_net : nat → dense_net_args → result model;
  summary : nat → model → result unit;
  compile : nat → model → compile_args → result unit;
  model_fit : nat → model → fit_args → result history;
  datagen_fit : nat → image_data_generator → ndarray → Z → result unit;
  fit_generator : nat → model → fit_generator_args → result history;
  open_write : nat → string → result unit;
  writerows : nat → string → list (list string) → result unit;
  close : nat → string → result unit;
  save : nat → model → string → result unit }.

(** numpy: [a.astype('float32')] and [a /= 255] on a float32 array. *)
Definition to_float32 (x : float) : float :=
  match x with
  | S754_finite s m e => binary_normalize 24 128 (cond_Zopp s (Zpos m)) e s
  | _ => x
  end.
Definition astype_float32 (a : ndarray) : ndarray :=
  {| shape := shape a; flat := map to_float32 (flat a) |}.
Definition idiv (a : ndarray) (d : Z) : ndarray :=
  {| shape := shape a;
     flat := map (λ v, SFdiv 24 128 v (binary_normalize 24 128 d 0 false))
                 (flat a) |}.

(** [str] of a shape tuple. *)
Definition str_shape (s : list nat) : string :=
  match s with
  | [] => "()"
  | [a] => "(" +:+ str_nat a +:+ ",)"
  | _ => "(" +:+ String.concat ", " (map str_nat s) +:+ ")"
  end.

Fixpoint zip3 {A B C} (l1 : list A) (l2 : list B) (l3 : list C)
    : list (A * B * C) :=
  match l1, l2, l3 with
  | a :: l1', b :: l2', c :: l3' => (a, b, c) :: zip3 l1' l2' l3'
  | _, _, _ => []
  end.

(** A name that was never bound. *)
Definition name_error {A} (name : string) : M A :=
  λ n, ([], Raise (Exception ("NameError: name '" +:+ name +:+
                              "' is not defined")), n).

(** [with open(path, 'w') as fp: body]: the file is closed when the body
    is left, also by an exception, which then goes on to the caller; an
    exception of the closing itself takes its place. *)
Definition with_open {A} (close_answer : nat → result unit) (path : string)
    (open_answer : nat → result unit) (body : M A) : M A :=
  λ n,
    match call (OpenWrite path) open_answer n with
    | (t1, Raise e, n1) => (t1, Raise e, n1)
    | (t1, Ok _, n1) =>
        match body n1 with
        | (t2, r, n2) =>
            match call (CloseFile path) close_answer n2 with
            | (t3, Raise e, n3) => (t1 ++ t2 ++ t3, Raise e, n3)
            | (t3, Ok _, n3) => (t1 ++ t2 ++ t3, r, n3)
            end
        end
    end.

Definition batch_size : Z := 64.
Definition nb_classes : Z := n_classes.
Definition nb_epoch : Z := 200.
Definition data_augmentation : bool := true.
Definition load_smoothed_labels : bool := false.
Definition model_type : string := "dense".
Definition img_rows : Z := 32.
Definition img_cols : Z := 32.
Definition img_channels : Z := 3.

Section Script.
Variable w : world.

(** The branch on [model_type]; in the last branch [model] stays unbound. *)
Definition build_model (input_shape : list Z) : M (option (model w)) :=
  if String.eqb model_type "sequential" then
    let! m := call (CreateModel nb_classes input_shape)
                   (λ n, create_model w n nb_classes input_shape) in
    ret (Some m)
  else if String.eqb model_type "dense" then
    let depth := 100 in
    let nb_dense_block := 3 in
    let growth_rate := 12 in
    let nb_filter := -1 in
    let bottleneck := true in
    let reduction := lit 5 1 in
    let dropout_rate := of_Z 0 in
    let a := {| Lib.nb_classes := nb_classes; input_shape := input_shape;
                depth := depth; nb_dense_block := nb_dense_block;
                growth_rate := growth_rate; nb_filter := nb_filter;
                bottleneck := bottleneck; reduction := reduction;
                dropout_rate := dropout_rate |} in
    let! m := call (CreateDenseNet a) (λ n, create_dense_net w n a) in
    ret (Some m)
  else
    print ("Not implemented model '" +:+ model_type +:+ "'") >>
    ret None.

(** The history of the training run as rows of text. *)
Definition history_rows (h : history) : list (list string) :=
  let loss_history := loss h in
  let acc_history := acc h in
  let val_acc_history := val_acc h in
  let data := zip3 loss_history acc_history val_acc_history in
  map (λ el, [format_0_4f el.1.1; format_0_4f el.1.2; format_0_4f el.2]) data.

(** The branch taken when [data_augmentation] holds. *)
Definition train_augmented (model : model w) (X_train Y_train : ndarray)
    : M unit :=
  print "Using real-time data augmentation." >>
  let datagen :=
    {| featurewise_center := false;
       samplewise_center := false;
       featurewise_std_normalization := false;
       samplewise_std_normalization := false;
       zca_whitening := false;
       rotation_range := 15;
       width_shift_range := fdiv (of_Z 5) (of_Z 32);
       height_shift_range := fdiv (of_Z 5) (of_Z 32);
       horizontal_flip := true;
       vertical_flip := false |} in
  call (DatagenFit X_train 0) (λ n, datagen_fit w n datagen X_train 0) >>
  let cb := {| filepath := "weights/DenseNet-BC-100-12-gtsdb.h5";
               monitor := "val_acc";
               save_best_only := true;
               save_weights_only := false |} in
  let a := {| generator := {| flow_datagen := datagen;
                              flow_X := X_train;
                              flow_Y := Y_train;
                              flow_batch_size := batch_size |};
              samples_per_epoch := hd 0%nat (shape X_train);
              fg_nb_epoch := nb_epoch;
              fg_validation_data := (X_train, Y_train);
              callbacks := [cb] |} in
  let! history_callback :=
    call (FitGenerator a) (λ n, fit_generator w n model a) in
  let data := history_rows history_callback in
  with_open (λ n, close w n "history.csv") "history.csv"
            (λ n, open_write w n "history.csv")
    (call (Writerows "history.csv" [["loss"; "acc"; "val_acc"]])
          (λ n, writerows w n "history.csv" [["loss"; "acc"; "val_acc"]]) >>
     call (Writerows "history.csv" data)
          (λ n, writerows w n "history.csv" data)).

(** The branch taken otherwise. *)
Definition train_plain (model : model w)
    (X_train Y_train X_val Y_val : ndarray) : M unit :=
  print "Not using data augmentation." >>
  let a := {| fit_X := X_train; fit_Y := Y_train;
              fit_batch_size := batch_size; fit_nb_epoch := nb_epoch;
              fit_validation_data := (X_val, Y_val);
              fit_shuffle := true |} in
  call (ModelFit a) (λ n, model_fit w n model a) >>
  ret tt.

(** The module body of train.py. *)
Definition script : M unit :=
  call (NpRandomSeed 0) (λ _, Ok tt) >>
  let! data := call LoadData (load_data w) in
  let X_train := x_train data in
  let y_train := y_train data in
  let X_val := X_train in
  let y_val := y_train in
  let! Y_train := call (ToCategorical y_train nb_classes)
                       (λ n, to_categorical w n y_train nb_classes) in
  print (str_shape (shape Y_train)) >>
  print (str_shape (shape Y_train)) >>
  let! Y_train :=
    (if load_smoothed_labels
     then call (NpLoad "smoothed_lables.npy")
               (λ n, np_load w n "smoothed_lables.npy")
     else ret Y_train) in
  let! Y_val := call (ToCategorical y_val nb_classes)
                     (λ n, to_categorical w n y_val nb_classes) in
  let! ordering := call ImageDimOrdering (image_dim_ordering w) in
  let input_shape :=
    if String.eqb ordering "th"
    then [img_channels; img_rows; img_cols]
    else [img_rows; img_cols; img_channels] in
  let! model := build_model input_shape in
  print "Model created" >>
  let! model := (match model with
                 | Some m => ret m
                 | None => name_error "model"
                 end) in
  call Summary (λ n, summary w n model) >>
  let optimizer_lr := lit 1 4 in
  let c := {| loss_name := "categorical_crossentropy";
              optimizer_lr := optimizer_lr;
              metrics := ["accuracy"] |} in
  call (Compile c) (λ n, compile w n model c) >>
  print "Finished compiling" >>
  print "Building model..." >>
  let X_train := astype_float32 X_train in
  let X_val := astype_float32 X_val in
  let X_train := idiv X_train 255 in
  let X_val := idiv X_val 255 in
  (if negb data_augmentation
   then train_plain model X_train Y_train X_val Y_val
   else train_augmented model X_train Y_train) >>
  call (Save "gtsdb.h5") (λ n, save w n model "gtsdb.h5").

End Script.
End Gtsdb.

(** ** Observations on traces, and the properties stated of them *)

Module Trace.
Import Py Lib.

Definition raisedb (e : event) : bool :=
  match e with
  | Call _ (Some _) => true
  | _ => false
  end.

(** No call of the trace raised. *)
Definition clean (t : list event) : Prop := Forall (λ e, raisedb e = false) t.

Definition is_close (e : event) : bool :=
  match e with
  | Call (CloseFile _) _ => true
  | _ => false
  end.

(** The calls of a trace, in order. *)
Definition calls (t : list event) : list libcall :=
  omap (λ e, match e with Call c _ => Some c | Stdout _ => None end) t.

(** The calls that create, write or close a file. *)
Definition is_file_call (c : libcall) : bool :=
  match c with
  | OpenWrite _ | Writerows _ _ | CloseFile _ | Save _ => true
  | _ => false
  end.
Definition file_calls (t : list event) : list libcall :=
  List.filter is_file_call (calls t).

(** The exception of the last call that raised. *)
Definition last_raised (t : list event) : option exn :=
  last (omap (λ e, match e with Call _ x => x | Stdout _ => None end) t).

(** A run in which no exception is caught and nothing is tried again: a
    run that returns saw no exception; in a run that fails, the first call
    that raised is followed by nothing, except that a file opened by [with]
    is still closed, and the run fails with the last exception raised. *)
Definition uncaught {A} (t : list event) (r : result A) : Prop :=
  match r with
  | Ok _ => clean t
  | Raise e =>
      ∃ t1 c e1 t2,
        t = t1 ++ Call c (Some e1) :: t2 ∧ clean t1 ∧
        (t2 = [] ∨ ∃ path x, is_close (Call c (Some e1)) = false ∧
                             t2 = [Call (CloseFile path) x]) ∧
        last_raised (Call c (Some e1) :: t2) = Some e
  end.

(** [x] has four decimal places: an integer part, a point, four digits. *)
Definition is_digit (c : ascii) : bool :=
  (48 <=? nat_of_ascii c)%nat && (nat_of_ascii c <=? 57)%nat.
Definition four_decimals (s : string) : Prop :=
  ∃ int_part d1 d2 d3 d4,
    s = int_part +:+ "." +:+
        String d1 (String d2 (String d3 (String d4 EmptyString))) ∧
    is_digit d1 && is_digit d2 && is_digit d3 && is_digit d4 = true.

Definition is_finite (x : float) : bool :=
  match x with
  | S754_zero _ | S754_finite _ _ _ => true
  | _ => false
  end.

End Trace.

(** *** train.py: phases of the run *)

Module GtsdbOrder.
Import Py Lib.

(** seed the random numbers (0), load the data set (1), build and
    configure the model (2), fit (3), write the report and the model (4). *)
Definition phase (c : libcall) : nat :=
  match c with
  | NpRandomSeed _ => 0
  | LoadData | ToCategorical _ _ | NpLoad _ | ImageDimOrdering => 1
  | CreateModel _ _ | CreateDenseNet _ | Summary | Compile _ => 2
  | ModelFit _ | DatagenFit _ _ | FitGenerator _ => 3
  | OpenWrite _ | Writerows _ _ | CloseFile _ | Save _ => 4
  | _ => 0
  end.

(** keras records one value of each metric per epoch. *)
Definition history_per_epoch (w : Gtsdb.world) : Prop :=
  ∀ n m a h,
    Gtsdb.fit_generator w n m a = Ok h →
    length (Gtsdb.loss h) = Z.to_nat (fg_nb_epoch a) ∧
    length (Gtsdb.acc h) = Z.to_nat (fg_nb_epoch a) ∧
    length (Gtsdb.val_acc h) = Z.to_nat (fg_nb_epoch a).

End GtsdbOrder.

(** *** Policies on runs

    A policy says which event may follow which history.  A program meets a
    policy when, started after any history that satisfies its
    precondition, every event it emits is allowed at the moment it is
    emitted and no event follows a call that raised. *)

Module Logic.
Import Py Lib Trace.

Section Policy.
Variable allowed : list event → event → Prop.

Fixpoint ok_from (h t : list event) : Prop :=
  match t with
  | [] => True
  | e :: t' => clean h ∧ allowed h e ∧ ok_from (h ++ [e]) t'
  end.

Definition triple {A} (P : list event → Prop) (m : M A)
    (Q : A → list event → Prop) : Prop :=
  ∀ h n, P h → clean h →
    ok_from h (m n).1.1 ∧
    match (m n).1.2 with
    | Ok a => clean (h ++ (m n).1.1) ∧ Q a (h ++ (m n).1.1)
    | Raise e => ∃ t' c, (m n).1.1 = t' ++ [Call c (Some e)]
    end.

End Policy.
End Logic.

(** *** python.py: the order of a run and what its calls are about *)

Module MnistOrder.
Import Py Lib Trace Mnist.

(** The classifiers on which [fit] was called, in order. *)
Definition fit_calls (t : list event) : list (string * estimator) :=
  omap (λ e, match e with
             | Call (Fit name clf _ _) _ => Some (name, clf)
             | _ => None
             end) t.

Definition count (p : event → bool) (t : list event) : nat :=
  length (List.filter p t).

Definition is_accuracy_score (e : event) : bool :=
  match e with
  | Call (AccuracyScore _ _) _ => true
  | _ => false
  end.
Definition is_load (e : event) : bool :=
  match e with
  | Call (FetchMldata _ | Shuffle _ | TrainTestSplit _ _) _ => true
  | _ => false
  end.
Definition is_matrix_line (e : event) : bool :=
  match e with
  | Stdout line => String.prefix "Confusion matrix:" line
  | Call _ _ => false
  end.

(** The number of classifiers whose evaluation reached its last call. *)
Definition evaluations (t : list event) : nat := count is_accuracy_score t.

(** The data set has been split into training and test set. *)
Definition loaded (t : list event) : Prop :=
  ∃ test_size random_state,
    Call (TrainTestSplit test_size random_state) None ∈ t.

(** The order of a run of python.py, event by event:
    - the data set is loaded before anything else happens;
    - a classifier is fitted when the data is loaded and every classifier
      before it in the list has been fitted and evaluated;
    - [predict] and the two metrics are called on the classifier fitted
      last, which is not evaluated yet;
    - the table is opened when all classifiers are fitted and evaluated,
      and no library is called after that;
    - no other call is made. *)
Definition in_order (h : list event) (e : event) : Prop :=
  match e with
  | Stdout line =>
      line = table_head →
      fit_calls h = classifiers ∧ evaluations h = length classifiers
  | Call c _ =>
      (Stdout table_head ∉ h) ∧
      match c with
      | FetchMldata _ | Shuffle _ | TrainTestSplit _ _ =>
          Forall (λ e, is_load e = true) h
      | TimeTime => loaded h
      | Fit name clf _ _ =>
          loaded h ∧
          (fit_calls h ++ [(name, clf)]) `prefix_of` classifiers ∧
          evaluations h = length (fit_calls h)
      | Predict name _ =>
          (∃ clf, last (fit_calls h) = Some (name, clf)) ∧
          S (evaluations h) = length (fit_calls h)
      | ConfusionMatrix _ _ | AccuracyScore _ _ =>
          S (evaluations h) = length (fit_calls h)
      | _ => False
      end
  end.

Section About.
Variable w : world.
Variable data : dataset.

(** What the calls of a run on [data] are about:
    - a classifier is fitted on (the first 100000 rows of) the training
      set;
    - [predict] is called on a chunk of the test samples;
    - the metrics compare the test labels with an array that the loop
      [predict_chunks] returned for the test samples;
    - a line "Confusion matrix:" shows the matrix that the call just
      before it returned. *)
Definition about (h : list event) (e : event) : Prop :=
  match e with
  | Stdout line =>
      String.prefix "Confusion matrix:" line = true →
      ∃ y_pred n cm,
        last h = Some (Call (ConfusionMatrix (y (test data)) y_pred) None) ∧
        confusion_matrix w n (y (test data)) y_pred = Ok cm ∧
        line = "Confusion matrix:" +:+ nl +:+ str_matrix w cm
  | Call (Fit _ _ train_X train_y) _ =>
      train_X = take (Z.to_nat 100000) (X (train data)) ∧
      train_y = take (Z.to_nat 100000) (y (train data))
  | Call (Predict _ chunk) _ =>
      ∃ i, chunk = slice (X (test data)) i (i + 128)
  | Call (ConfusionMatrix y_true y_pred) _
  | Call (AccuracyScore y_true y_pred) _ =>
      y_true = y (test data) ∧
      ∃ clf name n,
        (predict_chunks w clf name (X (test data)) n).1.2 = Ok y_pred
  | Call _ _ => True
  end.

Definition policy (h : list event) (e : event) : Prop :=
  in_order h e ∧ about h e.

(** A history in which the first [fitted] classifiers of the list are
    fitted, [evaluated] of them are evaluated, [shown] confusion matrices
    are printed and the table is not opened. *)
Definition hist (fitted evaluated shown : nat) (h : list event) : Prop :=
  loaded h ∧
  fit_calls h = take fitted classifiers ∧
  evaluations h = evaluated ∧
  count is_matrix_line h = shown ∧
  Stdout table_head ∉ h.

(** The entry of a classifier in [classifier_data] holds what [analyze]
    returned for a classifier of that name, and the fitting time that was
    passed to it. *)
Definition measured (name : string) (d : clf_data) : Prop :=
  ∃ clf fit_time n r,
    (analyze w clf data fit_time name n).1.2 = Ok r ∧
    training_time d = fit_time ∧
    testing_time d = res_testing_time r ∧
    accuracy d = res_accuracy r.

(** [classifier_data] after the first [k] classifiers. *)
Definition filled (k : nat) (cd : gmap string clf_data) : Prop :=
  dom cd = list_to_set (take k (map fst classifiers)) ∧
  ∀ name d, cd !! name = Some d → measured name d.

End About.

(** Lines that neither open the table nor show a confusion matrix. *)
Definition no_matrix_line (line : string) : Prop :=
  String.prefix "Confusion matrix:" line = false.
Definition quiet (line : string) : Prop :=
  line ≠ table_head ∧ no_matrix_line line.

(** A history of the loading phase. *)
Definition all_load (h : list event) : Prop :=
  Forall (λ e, is_load e = true) h.

Definition no_data : dataset :=
  {| train := {| X := []; y := [] |}; test := {| X := []; y := [] |} |}.

(** The [predict] calls on the chunks that start at [starts]. *)
Definition predict_events (name : string) (test_X : list sample)
    (starts : list nat) : list event :=
  map (λ i, Call (Predict name (slice test_X i (i + 128))) None) starts.

Section Website.
Variable w : world.

(** The lines of one table row: the attribute of a cell is [danger_msg]
    or empty. *)
Definition row_lines (acc_msg test_msg : string) (item : string * clf_data)
    : list string :=
  [ "<tr>";
    tab +:+ "<td>" +:+ item.1 +:+ "</td>";
    td_right +:+ " " +:+ acc_msg +:+ ">" +:+
      str_float w (accuracy item.2) +:+ "%</td>";
    td_right +:+ ">" +:+ str_float w (training_time item.2) +:+ "s</td>";
    td_right +:+ " " +:+ test_msg +:+ ">" +:+
      str_float w (testing_time item.2) +:+ "s</td>";
    "</tr>" ].

Definition danger_if (b : bool) : string := if b then danger_msg else "".

Definition table_row (item : string * clf_data) : list string :=
  row_lines (danger_if (flt (accuracy item.2) (lit 9 1)))
            (danger_if (flt (of_Z 5) (testing_time item.2))) item.

(** The table for the rows [items]. *)
Definition table_lines (items : list (string * clf_data)) : list string :=
  table_head :: concat (map table_row items) ++ ["</tbody>"; "</table>"].

End Website.

End MnistOrder.

(** *** Small worlds, on which the scripts can be run *)

Module Worlds.
Import Py Lib.

(** Three samples of one pixel; every classifier predicts the label 2 for
    every row, and the clock shows the number of calls made. *)
Definition sklearn_ok : Mnist.world :=
  {| Mnist.fitted := unit;
     Mnist.fetch_mldata := λ _ _,
       Ok {| Mnist.X := [[of_Z 0]; [of_Z 255]; [of_Z 128]];
             Mnist.y := [of_Z 1; of_Z 2; of_Z 3] |};
     Mnist.shuffle := λ _ x y _, Ok (x, y);
     Mnist.train_test_split := λ _ x y _ _,
       Ok (take 1 x, drop 1 x, take 1 y, drop 1 y);
     Mnist.time := λ n, of_Z (Z.of_nat n);
     Mnist.fit := λ _ _ _ _, Ok tt;
     Mnist.predict := λ _ _ xs, Ok (map (λ _, of_Z 2) xs);
     Mnist.confusion_matrix := λ _ _ _, Ok [[1; 0]; [0; 1]];
     Mnist.accuracy_score := λ _ _ _, Ok (lit 5 1);
     Mnist.str_float := format_0_4f;
     Mnist.str_matrix := λ _, "[[1 0] [0 1]]" |}.

(** The same world, in which fitting a support vector machine fails. *)
Definition sklearn_svm_fails : Mnist.world :=
  {| Mnist.fitted := unit;
     Mnist.fetch_mldata := Mnist.fetch_mldata sklearn_ok;
     Mnist.shuffle := Mnist.shuffle sklearn_ok;
     Mnist.train_test_split := Mnist.train_test_split sklearn_ok;
     Mnist.time := Mnist.time sklearn_ok;
     Mnist.fit := λ _ clf _ _,
       match clf with
       | SVC _ _ _ _ _ => Raise (Exception "MemoryError")
       | _ => Ok tt
       end;
     Mnist.predict := Mnist.predict sklearn_ok;
     Mnist.confusion_matrix := Mnist.confusion_matrix sklearn_ok;
     Mnist.accuracy_score := Mnist.accuracy_score sklearn_ok;
     Mnist.str_float := format_0_4f;
     Mnist.str_matrix := Mnist.str_matrix sklearn_ok |}.

Definition array (s : list nat) (cells : list Z) : ndarray :=
  {| shape := s; flat := map of_Z cells |}.

(** Two images of one pixel with labels 1 and 2; the training reports the
    same three metrics in every epoch. *)
Definition keras_x : ndarray := array [2; 1; 1; 3]%nat [0; 255; 128; 3; 4; 5].
Definition keras_y : ndarray := array [2]%nat [1; 2].
Definition keras_Y : ndarray := array [2; 3]%nat [0; 1; 0; 0; 0; 1].

Definition keras_ok : Gtsdb.world :=
  {| Gtsdb.model := unit;
     Gtsdb.load_data := λ _,
       Ok {| Gtsdb.x_train := keras_x; Gtsdb.y_train := keras_y |};
     Gtsdb.to_categorical := λ _ _ _, Ok keras_Y;
     Gtsdb.np_load := λ _ _, Ok keras_Y;
     Gtsdb.image_dim_ordering := λ _, Ok "tf";
     Gtsdb.create_model := λ _ _ _, Ok tt;
     Gtsdb.create_dense_net := λ _ _, Ok tt;
     Gtsdb.summary := λ _ _, Ok tt;
     Gtsdb.compile := λ _ _ _, Ok tt;
     Gtsdb.model_fit := λ _ _ a,
       Ok {| Gtsdb.loss := repeat (lit 23 1) (Z.to_nat (fit_nb_epoch a));
             Gtsdb.acc := repeat (lit 55 2) (Z.to_nat (fit_nb_epoch a));
             Gtsdb.val_acc := repeat (lit 66666 5)
                                     (Z.to_nat (fit_nb_epoch a)) |};
     Gtsdb.datagen_fit := λ _ _ _ _, Ok tt;
     Gtsdb.fit_generator := λ _ _ a,
       Ok {| Gtsdb.loss := repeat (lit 23 1) (Z.to_nat (fg_nb_epoch a));
             Gtsdb.acc := repeat (lit 55 2) (Z.to_nat (fg_nb_epoch a));
             Gtsdb.val_acc := repeat (lit 66666 5)
                                     (Z.to_nat (fg_nb_epoch a)) |};
     Gtsdb.open_write := λ _ _, Ok tt;
     Gtsdb.writerows := λ _ _ _, Ok tt;
     Gtsdb.close := λ _ _, Ok tt;
     Gtsdb.save := λ _ _ _, Ok tt |}.

(** The arguments train.py gives to the network and to the training in
    this world. *)
Definition keras_dense_net : dense_net_args :=
  {| nb_classes := 100; input_shape := [32; 32; 3]; depth := 100;
     nb_dense_block := 3; growth_rate := 12; nb_filter := -1;
     bottleneck := true; reduction := lit 5 1; dropout_rate := of_Z 0 |}.

Definition keras_X : ndarray := Gtsdb.idiv (Gtsdb.astype_float32 keras_x) 255.

Definition keras_fit_generator : fit_generator_args :=
  {| generator :=
       {| flow_datagen :=
            {| featurewise_center := false;
               samplewise_center := false;
               featurewise_std_normalization := false;
               samplewise_std_normalization := false;
               zca_whitening := false;
               rotation_range := 15;
               width_shift_range := fdiv (of_Z 5) (of_Z 32);
               height_shift_range := fdiv (of_Z 5) (of_Z 32);
               horizontal_flip := true;
               vertical_flip := false |};
          flow_X := keras_X;
          flow_Y := keras_Y;
          flow_batch_size := 64 |};
     samples_per_epoch := 2;
     fg_nb_epoch := 200;
     fg_validation_data := (keras_X, keras_Y);
     callbacks :=
       [ {| filepath := "weights/DenseNet-BC-100-12-gtsdb.h5";
            monitor := "val_acc";
            save_best_only := true;
            save_weights_only := false |} ] |}.

(** A dictionary of two classifiers for [print_website]. *)
Definition two_rows : gmap string Mnist.clf_data :=
  <["k nn" := {| Mnist.training_time := lit 15 1;
                 Mnist.testing_time := lit 61 1;
                 Mnist.accuracy := lit 97 2 |}]>
  (<["Naive Bayes" := {| Mnist.training_time := lit 2 1;
                          Mnist.testing_time := lit 3 1;
                          Mnist.accuracy := lit 56 2 |}]> ∅).

End Worlds.

(** ** train.py with its switches as parameters

    The three switches at the head of train.py ([data_augmentation],
    [load_smoothed_labels], [model_type]) are module constants that a user
    edits.  [script_for] is the module body for any setting of them;
    [script] is [script_for] at the values the file has. *)

Module GtsdbConfig.
Import Py Lib Gtsdb.

Record config : Type := {
  cfg_data_augmentation : bool;
  cfg_load_smoothed_labels : bool;
  cfg_model_type : string }.

Definition as_written : config :=
  {| cfg_data_augmentation := data_augmentation;
     cfg_load_smoothed_labels := load_smoothed_labels;
     cfg_model_type := model_type |}.

Section Script.
Variable w : world.
Variable c : config.

Definition build_model_for (input_shape : list Z) : M (option (model w)) :=
  if String.eqb (cfg_model_type c) "sequential" then
    let! m := call (CreateModel nb_classes input_shape)
                   (λ n, create_model w n nb_classes input_shape) in
    ret (Some m)
  else if String.eqb (cfg_model_type c) "dense" then
    let depth := 100 in
    let nb_dense_block := 3 in
    let growth_rate := 12 in
    let nb_filter := -1 in
    let bottleneck := true in
    let reduction := lit 5 1 in
    let dropout_rate := of_Z 0 in
    let a := {| Lib.nb_classes := nb_classes; input_shape := input_shape;
                depth := depth; nb_dense_block := nb_dense_block;
                growth_rate := growth_rate; nb_filter := nb_filter;
                bottleneck := bottleneck; reduction := reduction;
                dropout_rate := dropout_rate |} in
    let! m := call (CreateDenseNet a) (λ n, create_dense_net w n a) in
    ret (Some m)
  else
    print ("Not implemented model '" +:+ cfg_model_type c +:+ "'") >>
    ret None.

Definition script_for : M unit :=
  call (NpRandomSeed 0) (λ _, Ok tt) >>
  let! data := call LoadData (load_data w) in
  let X_train := x_train data in
  let y_train := y_train data in
  let X_val := X_train in
  let y_val := y_train in
  let! Y_train := call (ToCategorical y_train nb_classes)
                       (λ n, to_categorical w n y_train nb_classes) in
  print (str_shape (shape Y_train)) >>
  print (str_shape (shape Y_train)) >>
  let! Y_train :=
    (if cfg_load_smoothed_labels c
     then call (NpLoad "smoothed_lables.npy")
               (λ n, np_load w n "smoothed_lables.npy")
     else ret Y_train) in
  let! Y_val := call (ToCategorical y_val nb_classes)
                     (λ n, to_categorical w n y_val nb_classes) in
  let! ordering := call ImageDimOrdering (image_dim_ordering w) in
  let input_shape :=
    if String.eqb ordering "th"
    then [img_channels; img_rows; img_cols]
    else [img_rows; img_cols; img_channels] in
  let! model := build_model_for input_shape in
  print "Model created" >>
  let! model := (match model with
                 | Some m => ret m
                 | None => name_error "model"
                 end) in
  call Summary (λ n, summary w n model) >>
  let optimizer_lr := lit 1 4 in
  let c' := {| loss_name := "categorical_crossentropy";
               optimizer_lr := optimizer_lr;
               metrics := ["accuracy"] |} in
  call (Compile c') (λ n, compile w n model c') >>
  print "Finished compiling" >>
  print "Building model..." >>
  let X_train := astype_float32 X_train in
  let X_val := astype_float32 X_val in
  let X_train := idiv X_train 255 in
  let X_val := idiv X_val 255 in
  (if negb (cfg_data_augmentation c)
   then train_plain w model X_train Y_train X_val Y_val
   else train_augmented w model X_train Y_train) >>
  call (Save "gtsdb.h5") (λ n, save w n model "gtsdb.h5").

End Script.

(** A model type the script knows. *)
Definition known_model_type (c : config) : bool :=
  String.eqb (cfg_model_type c) "sequential" ||
  String.eqb (cfg_model_type c) "dense".

Definition is_model_call (e : event) : bool :=
  match e with
  | Call (CreateModel _ _ | CreateDenseNet _ | Summary | Compile _
         | ModelFit _ | DatagenFit _ _ | FitGenerator _ | Save _) _ => true
  | _ => false
  end.

End GtsdbConfig.

(** ** numpy: float32 *)

Module Float32.
Import Py Lib.

(** The integer [n] as a float32. *)
Definition f32 (n : Z) : float := binary_normalize 24 128 n 0 false.

End Float32.

(** ** python.py: the chunks of the test set *)

Module Chunks.
Import Py Lib.

(** The slices [X[i:i + 128]] for [i] in [range(0, len(X), 128)]. *)
Definition chunks {A} (X : list A) : list (list A) :=
  map (λ i, slice X i (i + 128)) (range 0 (length X) 128).

Definition is_predict (e : event) : bool :=
  match e with
  | Call (Predict _ _) _ => true
  | _ => false
  end.

Definition is_metric (e : event) : bool :=
  match e with
  | Call (ConfusionMatrix _ _ | AccuracyScore _ _) _ => true
  | _ => false
  end.

(** The lines a run wrote to standard output, in order. *)
Definition lines (t : list event) : list string :=
  omap (λ e, match e with Stdout line => Some line | Call _ _ => None end) t.

End Chunks.

(** ** More small worlds *)

Module MoreWorlds.
Import Py Lib Worlds.

(** [keras_ok] with a disk that is full when the rows are written. *)
Definition keras_disk_full : Gtsdb.world :=
  {| Gtsdb.model := unit;
     Gtsdb.load_data := Gtsdb.load_data keras_ok;
     Gtsdb.to_categorical := Gtsdb.to_categorical keras_ok;
     Gtsdb.np_load := Gtsdb.np_load keras_ok;
     Gtsdb.image_dim_ordering := Gtsdb.image_dim_ordering keras_ok;
     Gtsdb.create_model := Gtsdb.create_model keras_ok;
     Gtsdb.create_dense_net := Gtsdb.create_dense_net keras_ok;
     Gtsdb.summary := Gtsdb.summary keras_ok;
     Gtsdb.compile := Gtsdb.compile keras_ok;
     Gtsdb.model_fit := Gtsdb.model_fit keras_ok;
     Gtsdb.datagen_fit := Gtsdb.datagen_fit keras_ok;
     Gtsdb.fit_generator := Gtsdb.fit_generator keras_ok;
     Gtsdb.open_write := Gtsdb.open_write keras_ok;
     Gtsdb.writerows := λ _ _ rows,
       match rows with
       | [_] => Ok tt
       | _ => Raise (Exception "IOError: No space left on device")
       end;
     Gtsdb.close := Gtsdb.close keras_ok;
     Gtsdb.save := Gtsdb.save keras_ok |}.

(** [keras_ok] with a training that runs out of memory. *)
Definition keras_fit_fails : Gtsdb.world :=
  {| Gtsdb.model := unit;
     Gtsdb.load_data := Gtsdb.load_data keras_ok;
     Gtsdb.to_categorical := Gtsdb.to_categorical keras_ok;
     Gtsdb.np_load := Gtsdb.np_load keras_ok;
     Gtsdb.image_dim_ordering := Gtsdb.image_dim_ordering keras_ok;
     Gtsdb.create_model := Gtsdb.create_model keras_ok;
     Gtsdb.create_dense_net := Gtsdb.create_dense_net keras_ok;
     Gtsdb.summary := Gtsdb.summary keras_ok;
     Gtsdb.compile := Gtsdb.compile keras_ok;
     Gtsdb.model_fit := Gtsdb.model_fit keras_ok;
     Gtsdb.datagen_fit := Gtsdb.datagen_fit keras_ok;
     Gtsdb.fit_generator := λ _ _ _, Raise (Exception "MemoryError");
     Gtsdb.open_write := Gtsdb.open_write keras_ok;
     Gtsdb.writerows := Gtsdb.writerows keras_ok;
     Gtsdb.close := Gtsdb.close keras_ok;
     Gtsdb.save := Gtsdb.save keras_ok |}.

Definition unknown_model : GtsdbConfig.config :=
  {| GtsdbConfig.cfg_data_augmentation := true;
     GtsdbConfig.cfg_load_smoothed_labels := false;
     GtsdbConfig.cfg_model_type := "resnet" |}.

Definition plain_training : GtsdbConfig.config :=
  {| GtsdbConfig.cfg_data_augmentation := false;
     GtsdbConfig.cfg_load_smoothed_labels := false;
     GtsdbConfig.cfg_model_type := "sequential" |}.

Definition smoothed_training : GtsdbConfig.config :=
  {| GtsdbConfig.cfg_data_augmentation := true;
     GtsdbConfig.cfg_load_smoothed_labels := true;
     GtsdbConfig.cfg_model_type := "dense" |}.

(** The arguments of [model.fit] in [keras_ok] without augmentation. *)
Definition keras_fit : fit_args :=
  {| fit_X := keras_X; fit_Y := keras_Y; fit_batch_size := 64;
     fit_nb_epoch := 200; fit_validation_data := (keras_X, keras_Y);
     fit_shuffle := true |}.

(** [sklearn_ok] in which [predict] fails. *)
Definition sklearn_predict_fails : Mnist.world :=
  {| Mnist.fitted := unit;
     Mnist.fetch_mldata := Mnist.fetch_mldata sklearn_ok;
     Mnist.shuffle := Mnist.shuffle sklearn_ok;
     Mnist.train_test_split := Mnist.train_test_split sklearn_ok;
     Mnist.time := Mnist.time sklearn_ok;
     Mnist.fit := Mnist.fit sklearn_ok;
     Mnist.predict := λ _ _ _, Raise (Exception "ValueError");
     Mnist.confusion_matrix := Mnist.confusion_matrix sklearn_ok;
     Mnist.accuracy_score := Mnist.accuracy_score sklearn_ok;
     Mnist.str_float := format_0_4f;
     Mnist.str_matrix := Mnist.str_matrix sklearn_ok |}.

(** [sklearn_ok] without a network connection. *)
Definition sklearn_offline : Mnist.world :=
  {| Mnist.fitted := unit;
     Mnist.fetch_mldata := λ _ _, Raise (Exception "IOError");
     Mnist.shuffle := Mnist.shuffle sklearn_ok;
     Mnist.train_test_split := Mnist.train_test_split sklearn_ok;
     Mnist.time := Mnist.time sklearn_ok;
     Mnist.fit := Mnist.fit sklearn_ok;
     Mnist.predict := Mnist.predict sklearn_ok;
     Mnist.confusion_matrix := Mnist.confusion_matrix sklearn_ok;
     Mnist.accuracy_score := Mnist.accuracy_score sklearn_ok;
     Mnist.str_float := format_0_4f;
     Mnist.str_matrix := Mnist.str_matrix sklearn_ok |}.

(** The data set [get_data] returns in [sklearn_ok], and one with 300
    test rows. *)
Definition sklearn_data : Mnist.dataset :=
  {| Mnist.train := {| Mnist.X := [[of_Z (-1)]]; Mnist.y := [of_Z 1] |};
     Mnist.test := {| Mnist.X := Mnist.scale [[of_Z 255]; [of_Z 128]];
                      Mnist.y := [of_Z 2; of_Z 3] |} |}.

Definition three_chunks : Mnist.dataset :=
  {| Mnist.train := {| Mnist.X := []; Mnist.y := [] |};
     Mnist.test := {| Mnist.X := repeat [of_Z 1] 300;
                      Mnist.y := repeat (of_Z 2) 300 |} |}.

End MoreWorlds.

(** ** Reading a number back from its text *)

Module Reading.
Import Py Trace.

(** The number that a text of decimal digits denotes. *)
Definition read_uint (l : list ascii) : option Z :=
  match NilZero.uint_of_string (string_of_list_ascii l) with
  | Some d => Some (Z.of_N (N.of_uint d))
  | None => None
  end.

(** An optional minus in front. *)
Definition strip_sign (l : list ascii) : bool * list ascii :=
  match l with
  | "-"%char :: l' => (true, l')
  | _ => (false, l)
  end.

(** Digits, a point and four digits: the number of ten-thousandths. *)
Definition read_places4 (body : list ascii) : option Z :=
  let k := (length body - 5)%nat in
  match drop k body with
  | "."%char :: frac =>
      if (length frac =? 4)%nat && (0 <? k)%nat then
        match read_uint (take k body), read_uint frac with
        | Some i, Some f => Some (i * 10000 + f)
        | _, _ => None
        end
      else None
  | _ => None
  end.

(** [s] read as a decimal number with exactly four places after the
    point, after an optional minus: its sign and its number of
    ten-thousandths. *)
Definition read_fixed4 (s : string) : option (bool * Z) :=
  let '(neg, body) := strip_sign (list_ascii_of_string s) in
  match read_places4 body with
  | Some n => Some (neg, n)
  | None => None
  end.

(** [s] shows the finite number [x] to four decimal places: [s] reads as
    a decimal with four places and the sign of [x], and the number read is
    within half a ten-thousandth of the magnitude [m * 2^e] of [x]. *)
Definition shows_to_four_places (s : string) (x : float) : Prop :=
  match x with
  | S754_zero sg => read_fixed4 s = Some (sg, 0)
  | S754_finite sg m e =>
      ∃ n, read_fixed4 s = Some (sg, n) ∧
           match e with
           | Zneg p =>
               2 * Z.abs (n * 2 ^ Zpos p - Zpos m * 10000) <= 2 ^ Zpos p
           | _ => n = Zpos m * 10000 * 2 ^ e
           end
  | _ => False
  end.

(** What ["%0.4f" % x] writes: a finite number to four decimal places,
    and the words of Python for the other values. *)
Definition formatted (s : string) (x : float) : Prop :=
  match x with
  | S754_nan => s = "nan"
  | S754_infinity sg => s = sign sg +:+ "inf"
  | _ => four_decimals s ∧ shows_to_four_places s x
  end.

(** The four digits that [frac4] writes for [r] read back as [r]. *)
Definition reads_frac4 (r : nat) : bool :=
  match read_uint (list_ascii_of_string (frac4 (Z.of_nat r))) with
  | Some v => v =? Z.of_nat r
  | None => false
  end.

End Reading.

(** ** The files of a run *)

Module Artifacts.
Import Lib Trace.

(** The files a call can write: the one it opens, writes, closes or
    saves, and, for [fit_generator], the files of its checkpoint
    callbacks, which keras writes while it trains. *)
Definition paths_written (c : libcall) : list string :=
  match c with
  | OpenWrite p | Writerows p _ | CloseFile p | Save p => [p]
  | FitGenerator a => map filepath (callbacks a)
  | _ => []
  end.

Definition output_paths (t : list event) : list string :=
  concat (map paths_written (calls t)).

End Artifacts.

(** ** train.py: the stages of a run *)

Module GtsdbStages.
Import Py Lib Trace Gtsdb.

Inductive stage : Type :=
| Seeding | Loading | Configuring | Fitting | Evaluating | Reporting.

#[global] Instance stage_eq_dec : EqDecision stage.
Proof. solve_decision. Defined.

(** What a call of train.py does.  A training call is given validation
    data: keras fits the model and, after every epoch, evaluates it on
    that data; the metrics of both are in the history it returns. *)
Definition stages_of (c : libcall) : list stage :=
  match c with
  | NpRandomSeed _ => [Seeding]
  | LoadData | ToCategorical _ _ | NpLoad _ | ImageDimOrdering => [Loading]
  | CreateModel _ _ | CreateDenseNet _ | Summary | Compile _ => [Configuring]
  | DatagenFit _ _ => [Fitting]
  | ModelFit _ | FitGenerator _ => [Fitting; Evaluating]
  | OpenWrite _ | Writerows _ _ | CloseFile _ | Save _ => [Reporting]
  | _ => []
  end.

(** A list without repetitions of neighbours. *)
Fixpoint squash (l : list stage) : list stage :=
  match l with
  | [] => []
  | a :: l' =>
      match squash l' with
      | b :: r => if decide (a = b) then b :: r else a :: b :: r
      | [] => [a]
      end
  end.

(** The stages a run went through, in order.  A call that raised got as
    far as the first of its stages. *)
Definition stages_of_event (e : event) : list stage :=
  match e with
  | Call c None => stages_of c
  | Call c (Some _) => take 1 (stages_of c)
  | Stdout _ => []
  end.

Definition stages (t : list event) : list stage :=
  squash (concat (map stages_of_event t)).

(** The shape of a run. *)
Definition linear_shape : list stage :=
  [Seeding; Loading; Configuring; Fitting; Evaluating; Reporting].

(** The calls of a run of train.py that went through all stages: the
    data is loaded and its labels are made categorical; the network is
    built for the input shape of the backend, and compiled; the model is
    fitted by [fit_generator], which is given the training data as
    validation data; the history that this call returned is written to
    history.csv, and the model is saved. *)
Definition full_run (w : world) (t : list event) : Prop :=
  ∃ data Y_train Y_val ordering m a h,
    load_data w 1 = Ok data ∧
    to_categorical w 2 (y_train data) nb_classes = Ok Y_train ∧
    to_categorical w 3 (y_train data) nb_classes = Ok Y_val ∧
    image_dim_ordering w 4 = Ok ordering ∧
    fit_generator w 9 m a = Ok h ∧
    fg_validation_data a
      = (idiv (astype_float32 (x_train data)) 255, Y_train) ∧
    calls t =
      [ NpRandomSeed 0; LoadData;
        ToCategorical (y_train data) nb_classes;
        ToCategorical (y_train data) nb_classes;
        ImageDimOrdering;
        CreateDenseNet
          {| Lib.nb_classes := nb_classes;
             input_shape := if String.eqb ordering "th"
                            then [3; 32; 32] else [32; 32; 3];
             depth := 100; nb_dense_block := 3; growth_rate := 12;
             nb_filter := -1; bottleneck := true; reduction := lit 5 1;
             dropout_rate := of_Z 0 |};
        Summary;
        Compile {| loss_name := "categorical_crossentropy";
                   optimizer_lr := lit 1 4;
                   metrics := ["accuracy"] |};
        DatagenFit (idiv (astype_float32 (x_train data)) 255) 0;
        FitGenerator a;
        OpenWrite "history.csv";
        Writerows "history.csv" [["loss"; "acc"; "val_acc"]];
        Writerows "history.csv" (history_rows h);
        CloseFile "history.csv";
        Save "gtsdb.h5" ].

End GtsdbStages.

(** ** python.py: the rounds of the loop "Fit them all" *)

Module MnistRounds.
Import Py Lib Trace Mnist Chunks.

(** The lines of a run that show a confusion matrix, in order. *)
Definition matrix_lines (t : list event) : list string :=
  omap (λ e, match e with
             | Stdout line =>
                 if String.prefix "Confusion matrix:" line
                 then Some line else None
             | Call _ _ => None
             end) t.

Section Rounds.
Variable w : world.
Variable data : dataset.

(** A round that returns makes seven calls and one for every chunk of the
    test set: the clock, [fit], the clock, and in [analyze] the clock, the
    predictions, the clock and the two metrics.  [get_data] has made three
    calls before the first round. *)
Definition n_chunks : nat := length (chunks (X (test data))).
Definition round_start (k : nat) : nat := (3 + k * (7 + n_chunks))%nat.

(** What a round that starts at call [n], for the classifier [c],
    reports: [y_pred] are the predictions, chunk by chunk, of the
    classifier that this round's [fit] returned; [line] shows the
    confusion matrix of the test labels and [y_pred]; the entry [d] holds
    the accuracy of [y_pred] against the test labels, the time on the
    clock around [fit] and the time on the clock around the
    predictions. *)
Definition report_at (n : nat) (c : string * estimator)
    (y_pred : list float) (line : string) (d : clf_data) : Prop :=
  ∃ clf cm,
    fit w (n + 1)%nat c.2 (take (Z.to_nat 100000) (X (train data)))
                          (take (Z.to_nat 100000) (y (train data)))
      = Ok clf ∧
    (predict_chunks w clf c.1 (X (test data)) (n + 4)%nat).1.2
      = Ok y_pred ∧
    confusion_matrix w (n + 5 + n_chunks)%nat (y (test data)) y_pred
      = Ok cm ∧
    line = "Confusion matrix:" +:+ nl +:+ str_matrix w cm ∧
    accuracy_score w (n + 6 + n_chunks)%nat (y (test data)) y_pred
      = Ok (accuracy d) ∧
    training_time d = fsub (time w (n + 2)%nat) (time w n) ∧
    testing_time d = fsub (time w (n + 4 + n_chunks)%nat)
                          (time w (n + 3)%nat).

(** The report of round [k] of the loop. *)
Definition round_report (k : nat) := report_at (round_start k).

End Rounds.
End MnistRounds.

(** ** A world in which the training diverges *)

Module DivergedWorld.
Import Py Lib Worlds.

(** As [keras_ok], but the loss is not a number from the first epoch on. *)
Definition keras_diverged : Gtsdb.world :=
  {| Gtsdb.model := unit;
     Gtsdb.load_data := Gtsdb.load_data keras_ok;
     Gtsdb.to_categorical := Gtsdb.to_categorical keras_ok;
     Gtsdb.np_load := Gtsdb.np_load keras_ok;
     Gtsdb.image_dim_ordering := Gtsdb.image_dim_ordering keras_ok;
     Gtsdb.create_model := Gtsdb.create_model keras_ok;
     Gtsdb.create_dense_net := Gtsdb.create_dense_net keras_ok;
     Gtsdb.summary := Gtsdb.summary keras_ok;
     Gtsdb.compile := Gtsdb.compile keras_ok;
     Gtsdb.model_fit := Gtsdb.model_fit keras_ok;
     Gtsdb.datagen_fit := Gtsdb.datagen_fit keras_ok;
     Gtsdb.fit_generator := λ _ _ a,
       Ok {| Gtsdb.loss := repeat S754_nan (Z.to_nat (fg_nb_epoch a));
             Gtsdb.acc := repeat (lit 55 2) (Z.to_nat (fg_nb_epoch a));
             Gtsdb.val_acc := repeat (lit 66666 5)
                                     (Z.to_nat (fg_nb_epoch a)) |};
     Gtsdb.open_write := Gtsdb.open_write keras_ok;
     Gtsdb.writerows := Gtsdb.writerows keras_ok;
     Gtsdb.close := Gtsdb.close keras_ok;
     Gtsdb.save := Gtsdb.save keras_ok |}.

End DivergedWorld.

(** * Properties *)

Import Py Lib Trace.

(** ** Formatting *)

Module PyFacts.

Lemma str_app_assoc (a b c : string) : (a +:+ b) +:+ c = a +:+ (b +:+ c).
Proof.
  induction a as [|x a IH]; [reflexivity|].
  change (String x ((a +:+ b) +:+ c) = String x (a +:+ (b +:+ c))).
  by rewrite IH.
Qed.

Lemma is_digit_digit d : is_digit (digit (d mod 10)) = true.
Proof.
  unfold is_digit, digit.
  assert (H : (0 <= d mod 10 < 10)%Z) by (apply Z.mod_pos_bound; lia).
  rewrite nat_ascii_embedding by lia.
  apply andb_true_intro; split; apply Nat.leb_le; lia.
Qed.

Lemma frac4_digits int_part r : four_decimals (int_part +:+ "." +:+ frac4 r).
Proof.
  unfold frac4. eexists int_part, _, _, _, _. split; [reflexivity|].
  rewrite !is_digit_digit. reflexivity.
Qed.

Lemma format_0_4f_four_decimals x :
  is_finite x = true → four_decimals (format_0_4f x).
Proof.
  destruct x as [s|s| |s m e]; try discriminate; intros _; cbn [format_0_4f].
  - exists (sign s +:+ "0"), "0"%char, "0"%char, "0"%char, "0"%char.
    split; [|reflexivity]. by destruct s.
  - rewrite <- str_app_assoc. apply frac4_digits.
Qed.

End PyFacts.

(** ** Reading back what ["%0.4f"] wrote *)

Module ReadingFacts.
Import Reading.

Lemma list_ascii_of_string_app (a b : string) :
  list_ascii_of_string (a +:+ b) =
  list_ascii_of_string a ++ list_ascii_of_string b.
Proof.
  induction a as [|c a IH]; [reflexivity|].
  change (c :: list_ascii_of_string (a +:+ b) =
          c :: (list_ascii_of_string a ++ list_ascii_of_string b)).
  by rewrite IH.
Qed.

Lemma uint_of_str_Z q :
  NilZero.uint_of_string (str_Z q) = Some (N.to_uint (Z.to_N q)).
Proof.
  unfold str_Z. apply NilZero.usu.
  destruct (Z.to_N q) as [|p]; [discriminate|].
  intros H. apply (f_equal N.of_uint) in H.
  rewrite (DecimalN.Unsigned.of_to (Npos p)) in H. discriminate.
Qed.

Lemma read_uint_str_Z q :
  0 <= q → read_uint (list_ascii_of_string (str_Z q)) = Some q.
Proof.
  intros Hq. unfold read_uint.
  rewrite string_of_list_ascii_of_string, uint_of_str_Z.
  rewrite DecimalN.Unsigned.of_to. f_equal. lia.
Qed.

(** A number starts with a digit. *)
Lemma str_Z_head q :
  ∃ c rest, list_ascii_of_string (str_Z q) = c :: rest ∧ c ≠ "-"%char.
Proof.
  pose proof (uint_of_str_Z q) as H.
  destruct (str_Z q) as [|c s]; [discriminate|].
  exists c, (list_ascii_of_string s). split; [reflexivity|].
  intros ->. cbn in H. by destruct (NilEmpty.uint_of_string s).
Qed.

Lemma reads_frac4_all : forallb reads_frac4 (seq 0 (Z.to_nat 10000)) = true.
Proof. vm_compute. reflexivity. Qed.

Lemma read_uint_frac4 r :
  0 <= r < 10000 → read_uint (list_ascii_of_string (frac4 r)) = Some r.
Proof.
  intros Hr. pose proof reads_frac4_all as H.
  rewrite forallb_forall in H. specialize (H (Z.to_nat r)).
  unfold reads_frac4 in H. rewrite Z2Nat.id in H by lia.
  destruct (read_uint _) as [v|].
  - f_equal. apply Z.eqb_eq. apply H. apply in_seq. lia.
  - discriminate H. apply in_seq. lia.
Qed.

Lemma length_frac4 r : length (list_ascii_of_string (frac4 r)) = 4%nat.
Proof. reflexivity. Qed.

Lemma strip_sign_digit c rest :
  c ≠ "-"%char → strip_sign (c :: rest) = (false, c :: rest).
Proof.
  intros Hc. destruct c as [[] [] [] [] [] [] [] []]; try reflexivity.
  by destruct Hc.
Qed.

Lemma read_places4_format q r :
  0 <= q → 0 <= r < 10000 →
  read_places4 (list_ascii_of_string (str_Z q +:+ "." +:+ frac4 r))
    = Some (q * 10000 + r).
Proof.
  intros Hq Hr. unfold read_places4.
  rewrite !list_ascii_of_string_app.
  assert (Hint : (0 < length (list_ascii_of_string (str_Z q)))%nat).
  { destruct (str_Z_head q) as (c & rest & -> & _). cbn. lia. }
  replace (length _ - 5)%nat with (length (list_ascii_of_string (str_Z q)))
    by (rewrite !length_app, length_frac4; cbn; lia).
  rewrite drop_app_length, take_app_length.
  cbn [list_ascii_of_string app]. rewrite length_frac4.
  apply Nat.ltb_lt in Hint as ->.
  by rewrite read_uint_str_Z, read_uint_frac4.
Qed.

Lemma read_fixed4_signed sg q r :
  0 <= q → 0 <= r < 10000 →
  read_fixed4 (sign sg +:+ str_Z q +:+ "." +:+ frac4 r)
    = Some (sg, q * 10000 + r).
Proof.
  intros Hq Hr. pose proof (read_places4_format q r Hq Hr) as H.
  unfold read_fixed4. destruct sg; cbn [sign].
  - change (list_ascii_of_string ("-" +:+ ?s))
      with ("-"%char :: list_ascii_of_string s).
    cbn [strip_sign]. by rewrite H.
  - change ("" +:+ ?s) with s.
    destruct (str_Z_head q) as (c & rest & Hc & Hminus).
    rewrite list_ascii_of_string_app, Hc in *. cbn [app] in *.
    rewrite strip_sign_digit by done. by rewrite H.
Qed.

(** Rounding to the nearest integer, ties to the even one, is off by
    half at most. *)
Lemma round_half_even_near num den :
  0 < den →
  2 * Z.abs (round_half_even num den * den - num) <= den.
Proof.
  intros Hden. unfold round_half_even.
  pose proof (Z.div_mod num den ltac:(lia)) as Hdm.
  pose proof (Z.mod_pos_bound num den Hden) as Hm.
  destruct (Z.compare_spec (2 * (num mod den)) den) as [He|Hl|Hg];
    [destruct (Z.even (num / den))| |]; nia.
Qed.

Lemma round_half_even_nonneg num den :
  0 <= num → 0 < den → 0 <= round_half_even num den.
Proof.
  intros Hn Hd. unfold round_half_even.
  pose proof (Z.div_pos num den Hn Hd).
  destruct (_ ?= _); [destruct (Z.even _)| |]; lia.
Qed.

(** ["%0.4f" % x] shows a finite [x] rounded to four decimal places, and
    writes "nan", "inf" or "-inf" for the other values. *)
Lemma format_0_4f_formatted x : formatted (format_0_4f x) x.
Proof.
  destruct x as [sg|sg| |sg m e]; cbn [formatted]; try reflexivity.
  - split; [by apply PyFacts.format_0_4f_four_decimals|].
    cbn [shows_to_four_places format_0_4f]. by destruct sg.
  - split; [by apply PyFacts.format_0_4f_four_decimals|].
    cbn [shows_to_four_places format_0_4f].
    set (scaled := match e with
                   | Zneg p => round_half_even (Zpos m * 10000) (2 ^ Zpos p)
                   | _ => Zpos m * 10000 * 2 ^ e
                   end).
    assert (Hs : 0 <= scaled).
    { subst scaled. destruct e as [|p|p].
      - lia.
      - pose proof (Z.pow_pos_nonneg 2 (Zpos p)). lia.
      - apply round_half_even_nonneg; [lia|]. by apply Z.pow_pos_nonneg. }
    exists scaled. split.
    + rewrite read_fixed4_signed.
      * do 2 f_equal. pose proof (Z.div_mod scaled 10000). lia.
      * by apply Z.div_pos.
      * by apply Z.mod_pos_bound.
    + subst scaled. destruct e as [|p|p]; try reflexivity.
      apply round_half_even_near. by apply Z.pow_pos_nonneg.
Qed.

Lemma not_four_decimals_nan : ¬ four_decimals "nan".
Proof.
  intros (int_part & d1 & d2 & d3 & d4 & H & _).
  destruct int_part as [|a [|b [|c [|d int_part]]]]; cbn in H;
    discriminate H.
Qed.

End ReadingFacts.

(** ** train.py

    The script has no loop: a run is followed call by call, with a case
    for each answer of the libraries. *)

Module GtsdbFacts.
Import Gtsdb GtsdbOrder Reading Artifacts GtsdbStages.

Ltac simpl_run :=
  cbn -[lit of_Z fdiv astype_float32 idiv history_rows str_shape].

Ltac answers :=
  repeat match goal with
  | |- context [match ?x with Ok _ => _ | Raise _ => _ end] =>
      let E := fresh "E" in destruct x eqn:E; simpl_run
  | |- context [raised ?x] =>
      let E := fresh "E" in destruct x eqn:E; simpl_run
  end.

Ltac run_script :=
  unfold trace_of, result_of, script, build_model, train_augmented, with_open,
    bind, call, print, ret;
  simpl_run; answers.

Ltac pick H :=
  repeat (apply elem_of_cons in H as [H|H]; [try discriminate H|]);
  try (by apply elem_of_nil in H).

(** C1: the number of classes that train.py passes to
    [densenet.create_dense_net] is 100, the value of [gtsdb.n_classes]. *)
Theorem create_dense_net_gets_100_classes (w : world) a exc :
  Call (CreateDenseNet a) exc ∈ trace_of (script w) →
  Lib.nb_classes a = n_classes ∧ n_classes = 100.
Proof.
  run_script; intros H; pick H; by injection H as -> _.
Qed.

(** C3: in train.py the validation set is the training set.  The labels
    given to [to_categorical] for [Y_val] are the training labels, as for
    [Y_train]; [fit_generator] validates on the very arrays it trains on
    (the scaled training images and their categorical labels); and its
    only callback is a checkpoint that keeps the best weights by
    "val_acc", which is therefore measured on the training data. *)
Theorem validation_data_is_training_data (w : world) a exc :
  Call (FitGenerator a) exc ∈ trace_of (script w) →
  ∃ data Y_train cb,
    load_data w 1 = Ok data ∧
    to_categorical w 2 (y_train data) nb_classes = Ok Y_train ∧
    (∀ y n x, Call (ToCategorical y n) x ∈ trace_of (script w) →
              y = y_train data) ∧
    flow_X (generator a) = idiv (astype_float32 (x_train data)) 255 ∧
    flow_Y (generator a) = Y_train ∧
    fg_validation_data a = (flow_X (generator a), flow_Y (generator a)) ∧
    callbacks a = [cb] ∧ monitor cb = "val_acc" ∧ save_best_only cb = true.
Proof.
  run_script; intros H; pick H.
  all: injection H as -> _; eexists _, _, _.
  all: repeat split; try reflexivity; try eassumption.
  all: intros y n x H; pick H; by injection H as -> _ _.
Qed.

Lemma history_rows_length h n :
  length (loss h) = n → length (acc h) = n → length (val_acc h) = n →
  length (history_rows h) = n.
Proof.
  unfold history_rows. rewrite length_map.
  generalize (loss h) (acc h) (val_acc h). intros l1.
  revert n. induction l1 as [|a l1 IH]; intros n [|b l2] [|c l3] H1 H2 H3;
    cbn in *; try lia.
  destruct n; [lia|]. f_equal. apply IH; lia.
Qed.

Lemma history_rows_lookup h i row :
  history_rows h !! i = Some row →
  ∃ l a v, loss h !! i = Some l ∧ acc h !! i = Some a ∧
           val_acc h !! i = Some v ∧
           row = [format_0_4f l; format_0_4f a; format_0_4f v].
Proof.
  unfold history_rows. rewrite list_lookup_fmap.
  generalize (loss h) (acc h) (val_acc h). intros l1. revert i.
  induction l1 as [|a l1 IH]; intros i [|b l2] [|c l3] H;
    try (destruct i; discriminate).
  destruct i as [|i]; cbn in *.
  - injection H as <-. by eexists _, _, _.
  - by apply IH.
Qed.

(** C4 (as amended): a run of train.py that returns has written these
    files and no other.  It handed [fit_generator] a checkpoint callback
    for "weights/DenseNet-BC-100-12-gtsdb.h5", which keras writes while it
    trains; it opened "history.csv", wrote the header row (loss, acc,
    val_acc) and then one row per epoch of the history that
    [fit_generator] returned, and closed the file; it saved the model as
    "gtsdb.h5".  Every cell of a row is "%0.4f" of its metric: a finite
    value is shown to four decimal places (the text reads back as a number
    within half a ten-thousandth of the value), a value that is not a
    number is written "nan", an infinite one "inf" or "-inf". *)
Theorem history_csv_and_model_file (w : world) :
  history_per_epoch w →
  result_of (script w) = Ok tt →
  ∃ n m a h,
    fit_generator w n m a = Ok h ∧
    file_calls (trace_of (script w)) =
      [ OpenWrite "history.csv";
        Writerows "history.csv" [["loss"; "acc"; "val_acc"]];
        Writerows "history.csv" (history_rows h);
        CloseFile "history.csv";
        Save "gtsdb.h5" ] ∧
    remove_dups (output_paths (trace_of (script w))) =
      [ "weights/DenseNet-BC-100-12-gtsdb.h5"; "history.csv"; "gtsdb.h5" ] ∧
    length (history_rows h) = Z.to_nat nb_epoch ∧
    (∀ i row, history_rows h !! i = Some row →
       ∃ l a v, loss h !! i = Some l ∧ acc h !! i = Some a ∧
                val_acc h !! i = Some v ∧
                row = [format_0_4f l; format_0_4f a; format_0_4f v] ∧
                formatted (format_0_4f l) l ∧
                formatted (format_0_4f a) a ∧
                formatted (format_0_4f v) v).
Proof.
  intros Hk. run_script; try discriminate. intros _.
  match goal with E : fit_generator _ _ _ _ = Ok ?h |- _ =>
    pose proof (Hk _ _ _ _ E) as (H1 & H2 & H3); cbn in H1, H2, H3;
    eexists _, _, _, h; split; [exact E|] end.
  split; [reflexivity|]. split; [by vm_compute|].
  split; [by apply history_rows_length|].
  intros i row Hrow.
  destruct (history_rows_lookup _ _ _ Hrow) as (l & x & v & ? & ? & ? & ?).
  exists l, x, v.
  repeat split; auto using ReadingFacts.format_0_4f_formatted.
Qed.

Ltac split_at_raise :=
  lazymatch goal with
  | |- ∃ t1 c e1 t2, ?t = _ ∧ _ =>
      let rec go pre l :=
        lazymatch l with
        | Call ?c (Some ?e) :: ?rest => exists pre, c, e, rest
        | ?x :: ?rest => go constr:(pre ++ [x]) rest
        end in
      go constr:(@nil event) t
  end.

Lemma script_uncaught (w : world) :
  uncaught (trace_of (script w)) (result_of (script w)).
Proof.
  run_script; unfold uncaught; answers.
  all: try (repeat constructor; fail).
  all: split_at_raise.
  all: split; [reflexivity|].
  all: split; [repeat constructor|].
  all: split; [|reflexivity].
  all: first [ by left | right; eexists _, _; by split ].
Qed.

Lemma script_phases (w : world) :
  Sorted le (map phase (calls (trace_of (script w)))).
Proof.
  run_script; cbn; repeat constructor.
Qed.
(** Every run of train.py goes through the stages in order, as far as it
    gets. *)
Lemma script_stages_prefix (w : world) :
  stages (trace_of (script w)) `prefix_of` linear_shape.
Proof.
  run_script; vm_compute; eexists; reflexivity.
Qed.

(** A run of train.py that returns went through all of them. *)
Lemma script_full_run (w : world) :
  result_of (script w) = Ok tt →
  stages (trace_of (script w)) = linear_shape ∧
  full_run w (trace_of (script w)).
Proof.
  run_script; try discriminate. intros _. split; [by vm_compute|].
  eexists _, _, _, _, _, _, _.
  repeat split; try eassumption; reflexivity.
Qed.

End GtsdbFacts.

(** ** Rules for programs that meet a policy *)

Module LogicFacts.
Import Logic.

Lemma clean_app t1 t2 : clean (t1 ++ t2) ↔ clean t1 ∧ clean t2.
Proof. apply Forall_app. Qed.

Lemma clean_snoc_ok t c : clean t → clean (t ++ [Call c None]).
Proof. intros H. apply clean_app. split; [done|]. by repeat constructor. Qed.

Lemma clean_snoc_stdout t l : clean t → clean (t ++ [Stdout l]).
Proof. intros H. apply clean_app. split; [done|]. by repeat constructor. Qed.

Section Rules.
Context (allowed : list event → event → Prop).

Lemma ok_from_app h t1 t2 :
  ok_from allowed h (t1 ++ t2) ↔
  ok_from allowed h t1 ∧ ok_from allowed (h ++ t1) t2.
Proof.
  revert h. induction t1 as [|e t1 IH]; intros h; cbn.
  - rewrite app_nil_r. tauto.
  - rewrite IH, <- app_assoc. cbn. tauto.
Qed.

Lemma ok_from_split h t t1 e t2 :
  ok_from allowed h t → t = t1 ++ e :: t2 →
  clean (h ++ t1) ∧ allowed (h ++ t1) e.
Proof.
  intros H ->. apply ok_from_app in H as [_ H]. cbn in H. tauto.
Qed.

Lemma triple_ret {A} (P : list event → Prop) (a : A) Q :
  (∀ h, P h → clean h → Q a h) → triple allowed P (ret a) Q.
Proof.
  intros H h n HP Hc. cbn. rewrite app_nil_r. auto.
Qed.

Lemma triple_bind {A B} P (m : M A) (k : A → M B) R Q :
  triple allowed P m R →
  (∀ a, triple allowed (R a) (k a) Q) →
  triple allowed P (bind m k) Q.
Proof.
  intros Hm Hk h n HP Hc. specialize (Hm h n HP Hc). unfold bind.
  destruct (m n) as [[t1 [a|e]] n1]; cbn in *.
  - destruct Hm as (Hok & Hc1 & HR).
    specialize (Hk a (h ++ t1) n1 HR Hc1).
    destruct (k a n1) as [[t2 r] n2]; cbn in *.
    destruct Hk as [Hok2 Hr]. split; [by apply ok_from_app|].
    destruct r as [b|e].
    + by rewrite app_assoc.
    + destruct Hr as (t' & c & ->). exists (t1 ++ t'), c. by rewrite app_assoc.
  - done.
Qed.

Lemma triple_print P (line : string) Q :
  (∀ h, P h → clean h →
        allowed h (Stdout line) ∧ Q tt (h ++ [Stdout line])) →
  triple allowed P (print line) Q.
Proof.
  intros H h n HP Hc. destruct (H h HP Hc) as [Ha HQ]. cbn.
  repeat split; auto using clean_snoc_stdout.
Qed.

Lemma triple_call {A} P (c : libcall) (answer : nat → result A) Q :
  (∀ h exc, P h → clean h → allowed h (Call c exc)) →
  (∀ h n a, P h → clean h → answer n = Ok a → Q a (h ++ [Call c None])) →
  triple allowed P (call c answer) Q.
Proof.
  intros Ha HQ h n HP Hc. cbn. split; [by auto|].
  destruct (answer n) as [a|e] eqn:E; cbn.
  - split; eauto using clean_snoc_ok.
  - by exists [], c.
Qed.

Lemma triple_conseq {A} (P P' : list event → Prop) (m : M A)
    (Q Q' : A → list event → Prop) :
  triple allowed P' m Q' →
  (∀ h, P h → clean h → P' h) →
  (∀ a h, Q' a h → clean h → Q a h) →
  triple allowed P m Q.
Proof.
  intros Hm HP HQ h n Hp Hc. destruct (Hm h n (HP h Hp Hc) Hc) as [Hok Hr].
  split; [done|]. destruct ((m n).1.2); [|done].
  destruct Hr. auto.
Qed.

(** The value a program returns is the value of one of its runs. *)
Lemma triple_result {A} P (m : M A) Q :
  triple allowed P m Q →
  triple allowed P m (λ a h, Q a h ∧ ∃ n, (m n).1.2 = Ok a).
Proof.
  intros Hm h n HP Hc. destruct (Hm h n HP Hc) as [Hok Hr].
  split; [done|]. destruct ((m n).1.2) eqn:E; [|done].
  destruct Hr. eauto.
Qed.

Lemma triple_pure {A} (P : list event → Prop) (φ : Prop) (m : M A) Q :
  (φ → triple allowed P m Q) → triple allowed (λ h, P h ∧ φ) m Q.
Proof. intros H h n [HP Hφ]. by apply H. Qed.

Lemma triple_for_each {A S} (I : nat → S → list event → Prop)
    (l : list A) (body : S → A → M S) (acc : S) :
  (∀ k x acc, l !! k = Some x →
     triple allowed (I k acc) (body acc x) (λ acc', I (Datatypes.S k) acc')) →
  triple allowed (I 0%nat acc) (for_each l body acc)
         (λ acc', I (length l) acc').
Proof.
  revert I acc. induction l as [|x l IH]; intros I acc Hbody; cbn [for_each].
  - apply triple_ret. auto.
  - eapply triple_bind.
    + apply (Hbody 0%nat x acc). done.
    + intros acc'. apply (IH (λ k, I (Datatypes.S k))).
      intros k y acc'' Hk. apply (Hbody (Datatypes.S k)). done.
Qed.

End Rules.

Lemma ok_from_mono (A B : list event → event → Prop) h t :
  (∀ h e, A h e → B h e) → ok_from A h t → ok_from B h t.
Proof.
  intros HAB. revert h. induction t as [|e t IH]; intros h; cbn; [done|].
  intros (? & ? & ?). auto.
Qed.

End LogicFacts.

(** ** python.py: every run of [main] meets the policy *)

Module MnistFacts.
Import Logic LogicFacts Mnist MnistOrder.

(** Observations of a history that grows by one event. *)

Lemma fit_calls_app t1 t2 : fit_calls (t1 ++ t2) = fit_calls t1 ++ fit_calls t2.
Proof. apply omap_app. Qed.

Lemma count_app p t1 t2 : count p (t1 ++ t2) = (count p t1 + count p t2)%nat.
Proof. unfold count. by rewrite List.filter_app, length_app. Qed.

Lemma loaded_app t1 t2 : loaded t1 → loaded (t1 ++ t2).
Proof. intros (a & b & H). exists a, b. apply elem_of_app. by left. Qed.

Lemma not_elem_snoc {A} (x y : A) l : x ∉ l → x ≠ y → x ∉ l ++ [y].
Proof. intros H1 H2 [H|H%list_elem_of_singleton]%elem_of_app; done. Qed.

Lemma last_take_S {A} (l : list A) k x :
  l !! k = Some x → last (take (S k) l) = Some x.
Proof. intros H. rewrite (take_S_r _ _ _ H). apply last_snoc. Qed.

Lemma length_take_lookup {A} (l : list A) k x :
  l !! k = Some x → length (take k l) = k.
Proof. intros H%lookup_lt_Some. rewrite length_take. lia. Qed.

Ltac quiet_line :=
  split;
  [ let E := fresh in
    intros E; apply (f_equal (String.get 0)) in E; vm_compute in E;
    discriminate E
  | vm_compute; reflexivity ].

Lemma hist_stdout a b c h line :
  hist a b c h → quiet line → hist a b c (h ++ [Stdout line]).
Proof.
  intros (Hl & Hf & He & Hm & Hh) [Hq1 Hq2]. unfold hist, evaluations.
  unfold no_matrix_line in Hq2.
  rewrite fit_calls_app, !count_app. cbn. rewrite Hq2. cbn.
  rewrite app_nil_r, !Nat.add_0_r.
  repeat split; auto using loaded_app.
  apply not_elem_snoc; [done|]. intros [= E]. auto.
Qed.

Lemma hist_call a b c a' b' h (lc : libcall) :
  hist a b c h →
  fit_calls h ++ fit_calls [Call lc None] = take a' classifiers →
  (b + count is_accuracy_score [Call lc None])%nat = b' →
  hist a' b' c (h ++ [Call lc None]).
Proof.
  intros (Hl & Hf & He & Hm & Hh) Hfa <-. unfold hist, evaluations.
  rewrite fit_calls_app, !count_app, Hfa. fold (evaluations h). rewrite He, Hm.
  repeat split; auto using loaded_app.
  apply not_elem_snoc; [done|]. discriminate.
Qed.

Lemma hist_quiet_call a b c h (lc : libcall) :
  hist a b c h →
  fit_calls [Call lc None] = [] →
  count is_accuracy_score [Call lc None] = 0%nat →
  hist a b c (h ++ [Call lc None]).
Proof.
  intros Hh Hf He. eapply hist_call; [done| |].
  - rewrite Hf, app_nil_r. apply Hh.
  - rewrite He. lia.
Qed.

Section Run.
Context (w : world) (data : dataset).
Local Abbreviation pol := (policy w data).

Lemma quiet_print a b c line :
  quiet line → triple pol (hist a b c) (print line) (λ _, hist a b c).
Proof.
  intros Hq. apply triple_print. intros h Hh Hc. split.
  - split; cbn.
    + intros ->. by destruct Hq.
    + destruct Hq as [_ Hq]. unfold no_matrix_line in Hq. rewrite Hq.
      discriminate.
  - by apply hist_stdout.
Qed.

Lemma time_triple a b c :
  triple pol (hist a b c) (time_time w) (λ _, hist a b c).
Proof.
  apply triple_call.
  - intros h exc (Hl & Hf & He & Hm & Hh) Hc. by repeat split.
  - intros h n x Hh Hc _. by apply hist_quiet_call.
Qed.

Lemma predict_chunks_triple k name est clf test_X :
  classifiers !! k = Some (name, est) →
  test_X = X (test data) →
  triple pol (hist (S k) k k) (predict_chunks w clf name test_X)
         (λ _, hist (S k) k k).
Proof.
  intros Hk ->. unfold predict_chunks.
  eapply triple_conseq;
    [apply (triple_for_each pol (λ _ _, hist (S k) k k))| done |done].
  intros i x acc _. eapply triple_bind.
  - apply (triple_call pol _ _ _ (λ _, hist (S k) k k)).
    + intros h exc (Hl & Hf & He & Hm & Hh) Hc. split; cbn.
      * split; [done|]. rewrite Hf. split.
        -- exists est. by apply last_take_S.
        -- rewrite He, length_take. apply lookup_lt_Some in Hk. lia.
      * by exists x.
    + intros h n a Hh Hc _. by apply hist_quiet_call.
  - intros a. apply triple_ret. auto.
Qed.

Lemma hist_matrix_line a b c h line :
  hist a b c h → line ≠ table_head →
  String.prefix "Confusion matrix:" line = true →
  hist a b (S c) (h ++ [Stdout line]).
Proof.
  intros (Hl & Hf & He & Hm & Hh) Hq1 Hq2. unfold hist, evaluations.
  rewrite fit_calls_app, !count_app. cbn. rewrite Hq2. cbn.
  rewrite app_nil_r, !Nat.add_0_r.
  repeat split; auto using loaded_app; [lia|].
  apply not_elem_snoc; [done|]. intros [= E]. auto.
Qed.

Lemma analyze_triple k name est clf fit_time :
  classifiers !! k = Some (name, est) →
  triple pol (hist (S k) k k) (analyze w clf data fit_time name)
         (λ _, hist (S k) (S k) (S k)).
Proof.
  intros Hk. unfold analyze.
  eapply triple_bind; [apply time_triple|]. intros t0.
  eapply triple_bind;
    [apply triple_result; by eapply predict_chunks_triple|].
  intros predicted. apply triple_pure. intros Hpred.
  eapply triple_bind; [apply time_triple|]. intros t1.
  eapply triple_bind; [apply quiet_print; quiet_line|]. intros ?.
  eapply triple_bind; [apply quiet_print; quiet_line|]. intros ?.
  eapply triple_bind; [apply quiet_print; quiet_line|]. intros ?.
  eapply triple_bind.
  { apply (triple_call pol _ _ _
      (λ cm h, hist (S k) k k h ∧
               ∃ n, last h = Some (Call (ConfusionMatrix (y (test data))
                                           predicted) None) ∧
                    confusion_matrix w n (y (test data)) predicted = Ok cm)).
    - intros h exc (Hl & Hf & He & Hm & Hh) Hc. split; cbn.
      + split; [done|]. rewrite Hf, He, length_take.
        apply lookup_lt_Some in Hk. lia.
      + split; [done|]. destruct Hpred as [n Hn]. by exists clf, name, n.
    - intros h n cm Hh Hc Hcm. split; [by apply hist_quiet_call|].
      exists n. by rewrite last_snoc. }
  intros cm. eapply triple_bind.
  { apply (triple_print pol _ _ (λ _, hist (S k) k (S k))).
    intros h [Hh (n & Hlast & Hcm)] Hc.
    assert (Hne : "Confusion matrix:" +:+ nl +:+ str_matrix w cm ≠ table_head).
    { intros E. apply (f_equal (String.get 0)) in E. vm_compute in E.
      discriminate E. }
    split; [split; cbn|].
    - intros E. by destruct Hne.
    - intros _. by exists predicted, n, cm.
    - by apply hist_matrix_line. }
  intros ?. eapply triple_bind.
  { apply (triple_call pol _ _ _ (λ _, hist (S k) (S k) (S k))).
    - intros h exc (Hl & Hf & He & Hm & Hh) Hc. split; cbn.
      + split; [done|]. rewrite Hf, He, length_take.
        apply lookup_lt_Some in Hk. lia.
      + split; [done|]. destruct Hpred as [n Hn]. by exists clf, name, n.
    - intros h n acc Hh Hc _. eapply hist_call; [done| |].
      + cbn. rewrite app_nil_r. apply Hh.
      + cbn. lia. }
  intros acc. eapply triple_bind; [apply quiet_print; quiet_line|]. intros ?.
  apply triple_ret. auto.
Qed.

Lemma filled_insert k name est cd d :
  classifiers !! k = Some (name, est) →
  filled w data k cd → measured w data name d →
  filled w data (S k) (<[name := d]> cd).
Proof.
  intros Hk [Hdom Hm] Hd. split.
  - assert (Hn : map fst classifiers !! k = Some name)
      by (by rewrite list_lookup_fmap, Hk).
    rewrite dom_insert_L, Hdom, (take_S_r _ _ _ Hn), list_to_set_app_L.
    cbn. rewrite (right_id_L ∅ (∪)). apply (comm_L (∪)).
  - intros name' d' [[<- <-]|[_ H]]%lookup_insert_Some; eauto.
Qed.

Lemma fit_one_triple k c cd :
  classifiers !! k = Some c →
  filled w data k cd →
  triple pol (hist k k k) (fit_one w data cd c)
         (λ cd' h, hist (S k) (S k) (S k) h ∧ filled w data (S k) cd').
Proof.
  destruct c as [name est]. intros Hk Hcd. unfold fit_one. cbn [fst snd].
  eapply triple_bind; [apply quiet_print; quiet_line|]. intros ?.
  eapply triple_bind; [apply quiet_print; quiet_line|]. intros ?.
  eapply triple_bind; [apply time_triple|]. intros t0.
  eapply triple_bind.
  { apply (triple_call pol _ _ _ (λ _, hist (S k) k k)).
    - intros h exc (Hl & Hf & He & Hm & Hh) Hc. split; cbn.
      + split; [done|]. split; [done|]. rewrite Hf. split.
        * rewrite <- (take_S_r _ _ _ Hk). apply prefix_take.
        * by rewrite He, (length_take_lookup _ _ _ Hk).
      + done.
    - intros h n clf Hh Hc _. eapply hist_call; [done| |].
      + destruct Hh as (_ & -> & _). by rewrite (take_S_r _ _ _ Hk).
      + cbn. lia. }
  intros clf. eapply triple_bind; [apply time_triple|]. intros t1.
  eapply triple_bind; [apply triple_result; by eapply analyze_triple|].
  intros an_data. apply triple_pure. intros [n Hn].
  apply triple_ret. intros h Hh Hc. split; [done|].
  eapply filled_insert; [done..|]. by exists clf, (fsub t1 t0), n, an_data.
Qed.

(** [print_website] only prints: its run does not depend on the world's
    answers. *)

Lemma print_row_run item n :
  print_row w item n = (map Stdout (table_row w item), Ok tt, n).
Proof. reflexivity. Qed.

Lemma print_rows_run items n :
  for_each items (λ _ item, print_row w item) tt n =
  (map Stdout (concat (map (table_row w) items)), Ok tt, n).
Proof.
  revert n. induction items as [|item items IH]; intros n; [done|].
  cbn [for_each]. unfold bind at 1. rewrite print_row_run, IH.
  cbn [map concat]. by rewrite fmap_app.
Qed.

Lemma print_website_run cd n :
  print_website w cd n =
  (map Stdout (table_lines w (sorted_items cd)), Ok tt, n).
Proof.
  unfold print_website, table_lines, bind at 1 2. cbn [print].
  rewrite print_rows_run. cbn. by rewrite fmap_app.
Qed.

Lemma clean_stdout lines : clean (map Stdout lines).
Proof. induction lines; by constructor. Qed.

Lemma fit_calls_stdout lines : fit_calls (map Stdout lines) = [].
Proof. induction lines; by cbn. Qed.

Lemma evaluations_stdout lines : evaluations (map Stdout lines) = 0%nat.
Proof. induction lines; by cbn. Qed.

Lemma ok_from_report h lines :
  clean h → fit_calls h = classifiers →
  evaluations h = length classifiers →
  Forall no_matrix_line lines →
  ok_from pol h (map Stdout lines).
Proof.
  intros Hc Hf He Hl. revert h Hc Hf He.
  induction Hl as [|line lines Hline _ IH]; intros h Hc Hf He; [done|].
  cbn. split; [done|]. split.
  - split; cbn; [done|]. unfold no_matrix_line in Hline. rewrite Hline.
    discriminate.
  - apply IH.
    + by apply clean_snoc_stdout.
    + by rewrite fit_calls_app, Hf.
    + unfold evaluations in *. by rewrite count_app, He.
Qed.

Lemma table_rows_no_matrix_line items :
  Forall no_matrix_line
         (concat (map (table_row w) items) ++ ["</tbody>"; "</table>"]).
Proof.
  apply Forall_app. split; [|by repeat constructor].
  apply Forall_concat, Forall_fmap, Forall_forall. intros item _.
  by repeat constructor.
Qed.

Lemma website_triple cd :
  triple pol (hist 12 12 12) (print_website w cd)
         (λ _ h, ∃ h0, h = h0 ++ map Stdout (table_lines w (sorted_items cd)) ∧
                       hist 12 12 12 h0).
Proof.
  intros h n Hh Hc. rewrite print_website_run. cbn [fst snd].
  destruct Hh as (Hl & Hf & He & Hm & Hhd). split; [|split].
  - cbn. split; [done|]. split.
    + split; cbn; [done|discriminate].
    + apply ok_from_report; try apply table_rows_no_matrix_line.
      * by apply clean_snoc_stdout.
      * by rewrite fit_calls_app, Hf.
      * unfold evaluations in *. by rewrite count_app, He.
  - apply clean_app. split; [done|apply clean_stdout].
  - by exists h.
Qed.

Lemma all_load_facts h :
  all_load h →
  fit_calls h = [] ∧ evaluations h = 0%nat ∧
  count is_matrix_line h = 0%nat ∧ Stdout table_head ∉ h.
Proof.
  induction 1 as [|e h He _ (IH1 & IH2 & IH3 & IH4)].
  { repeat split; try done. apply not_elem_of_nil. }
  assert (Hne : Stdout table_head ≠ e) by (by intros <-).
  assert (Hin : Stdout table_head ∉ e :: h).
  { by intros [E|E]%elem_of_cons. }
  destruct e as [line|[] exc]; try discriminate He; by repeat split.
Qed.

Lemma all_load_hist h : all_load h → loaded h → hist 0 0 0 h.
Proof.
  intros (? & ? & ? & ?)%all_load_facts ?. by repeat split.
Qed.

Lemma load_call_triple {A} (c : libcall) (answer : nat → result A) :
  is_load (Call c None) = true →
  triple pol all_load (call c answer) (λ _, all_load).
Proof.
  intros Hload. apply triple_call.
  - intros h exc Hall Hc.
    assert (Hh : Stdout table_head ∉ h) by (by apply all_load_facts).
    destruct c; try discriminate Hload; by repeat split.
  - intros h n a Hall Hc _. apply Forall_app. split; [done|].
    by repeat constructor.
Qed.

Lemma get_data_triple :
  triple pol all_load (get_data w) (λ _ h, all_load h ∧ loaded h).
Proof.
  unfold get_data.
  eapply triple_bind; [by apply load_call_triple|]. intros mnist.
  eapply triple_bind; [by apply load_call_triple|]. intros xy.
  eapply triple_bind.
  { apply (triple_call pol _ _ _ (λ _ h, all_load h ∧ loaded h)).
    - intros h exc Hall Hc.
      assert (Hh : Stdout table_head ∉ h) by (by apply all_load_facts).
      by repeat split.
    - intros h n a Hall Hc _. split.
      + apply Forall_app. split; [done|]. by repeat constructor.
      + exists (lit 33 2), 42. apply elem_of_app. right. by left. }
  intros [[[x_train x_test] y_train] y_test]. apply triple_ret. auto.
Qed.

Lemma filled_empty : filled w data 0 ∅.
Proof.
  split.
  - by rewrite dom_empty_L.
  - intros name d H. by rewrite lookup_empty in H.
Qed.

(** Everything after the data set is loaded. *)
Lemma fit_all_triple :
  triple pol (hist 0 0 0)
    (let! classifier_data := for_each classifiers (fit_one w data) ∅ in
     print_website w classifier_data)
    (λ _ h, ∃ h0 cd,
       h = h0 ++ map Stdout (table_lines w (sorted_items cd)) ∧
       hist 12 12 12 h0 ∧ filled w data 12 cd).
Proof.
  eapply triple_bind.
  - eapply triple_conseq.
    + apply (triple_for_each pol
               (λ k cd h, hist k k k h ∧ filled w data k cd)).
      intros k c cd Hk. apply triple_pure. intros Hcd.
      by apply fit_one_triple.
    + intros h Hh _. split; [done|apply filled_empty].
    + intros cd h Hh _. exact Hh.
  - intros cd. apply triple_pure. intros Hcd.
    eapply triple_conseq; [apply website_triple|done|].
    intros _ h (h0 & -> & Hh0) _. by exists h0, cd.
Qed.

End Run.

(** The run of [main], in every world. *)
Lemma main_spec (w : world) :
  ∃ data,
    ok_from (policy w data) [] (trace_of (main w)) ∧
    match result_of (main w) with
    | Ok _ =>
        clean (trace_of (main w)) ∧
        ∃ h0 cd,
          trace_of (main w) =
            h0 ++ map Stdout (table_lines w (sorted_items cd)) ∧
          hist 12 12 12 h0 ∧ filled w data 12 cd
    | Raise e => ∃ t' c, trace_of (main w) = t' ++ [Call c (Some e)]
    end.
Proof.
  unfold trace_of, result_of, main. unfold bind at 1 3 5 7 9.
  destruct (get_data w 0%nat) as [[t1 [data|e]] n1] eqn:E.
  - exists data.
    destruct (get_data_triple w data [] 0%nat) as [Hok1 Hr1];
      [constructor..|]. rewrite E in Hok1, Hr1. cbn [fst snd] in Hok1, Hr1.
    destruct Hr1 as (Hc1 & Hall & Hl).
    destruct (fit_all_triple w data t1 n1) as [Hok2 Hr2];
      [by apply all_load_hist|done|].
    destruct (bind _ _ n1) as [[t2 r2] n2]. cbn [fst snd app] in *.
    split; [by apply ok_from_app|].
    destruct r2 as [[]|e]; [|destruct Hr2 as (t' & c & ->)].
    + destruct Hr2 as [Hc2 (h0 & cd & ? & ? & ?)]. split; [done|].
      by exists h0, cd.
    + exists (t1 ++ t'), c. by rewrite app_assoc.
  - exists no_data.
    destruct (get_data_triple w no_data [] 0%nat) as [Hok1 Hr1];
      [constructor..|]. by rewrite E in Hok1, Hr1.
Qed.

End MnistFacts.

(** ** python.py: predicting in chunks *)

Module AnalyzeFacts.
Import Mnist MnistOrder.

Section Chunks.
Context (w : world) (clf : fitted w) (name : string) (f : sample → float).
Hypothesis predict_rows : ∀ n xs, predict w n clf xs = Ok (map f xs).

Lemma chunk_loop test_X fuel start acc n :
  (length test_X ≤ fuel + start)%nat →
  for_each (range_from fuel start (length test_X) 128)
    (λ predicted i,
       let chunk := slice test_X i (i + 128) in
       let! predicted_single :=
         call (Predict name chunk) (λ n, predict w n clf chunk) in
       ret (predicted ++ predicted_single))
    acc n =
  (predict_events name test_X (range_from fuel start (length test_X) 128),
   Ok (acc ++ map f (drop start test_X)),
   (n + length (range_from fuel start (length test_X) 128))%nat).
Proof.
  revert start acc n. induction fuel as [|fuel IH]; intros start acc n Hfuel.
  - cbn. rewrite drop_ge by lia. by rewrite app_nil_r, Nat.add_0_r.
  - cbn [range_from]. destruct (start <? length test_X)%nat eqn:Hlt.
    + cbn [for_each]. unfold bind at 1. unfold bind at 1, call at 1.
      rewrite predict_rows. cbn [raised ret fst snd app].
      rewrite IH by lia. cbn [predict_events map length].
      f_equal; [f_equal|lia]. f_equal.
      rewrite <- app_assoc, <- fmap_app. do 2 f_equal.
      unfold slice. replace (start + 128 - start)%nat with 128%nat by lia.
      rewrite <- drop_drop. apply take_drop.
    + apply Nat.ltb_ge in Hlt. cbn.
      rewrite drop_ge by lia. by rewrite app_nil_r, Nat.add_0_r.
Qed.

Lemma predict_chunks_run test_X n :
  predict_chunks w clf name test_X n =
  (predict_events name test_X (range 0 (length test_X) 128),
   Ok (map f test_X),
   (n + length (range 0 (length test_X) 128))%nat).
Proof.
  unfold predict_chunks, range. rewrite chunk_loop by lia. by rewrite drop_0.
Qed.

Lemma predict_events_only test_X starts e :
  e ∈ predict_events name test_X starts → ∃ chunk, e = Call (Predict name chunk) None.
Proof.
  unfold predict_events. intros (i & -> & _)%list_elem_of_fmap. eauto.
Qed.

End Chunks.

Ltac answers :=
  repeat match goal with
  | |- context [match ?x with Ok _ => _ | Raise _ => _ end] =>
      let E := fresh "E" in destruct x eqn:E; cbn [fst snd raised app]
  | |- context [raised ?x] =>
      let E := fresh "E" in destruct x eqn:E; cbn [fst snd raised app]
  end.

Ltac pick H :=
  repeat (apply elem_of_cons in H as [H|H]; [try discriminate H|]);
  try (by apply elem_of_nil in H).

(** C10: for a classifier that predicts every row on its own, the array
    that [analyze] appends chunk by chunk holds one prediction per test
    example and is the prediction of the whole test set in one call; the
    confusion matrix and the accuracy are computed from the test labels
    and this array, and the accuracy returned is the one reported. *)
Theorem chunked_predictions_cover_test_set
    (w : world) (clf : fitted w) (data : dataset) (fit_time : float)
    (name : string) (f : sample → float) (n : nat) :
  (∀ n xs, predict w n clf xs = Ok (map f xs)) →
  ∃ y_pred,
    (∀ n0, (predict_chunks w clf name (X (test data)) n0).1.2 = Ok y_pred) ∧
    length y_pred = length (X (test data)) ∧
    (∀ n0, predict w n0 clf (X (test data)) = Ok y_pred) ∧
    (∃ exc, Call (ConfusionMatrix (y (test data)) y_pred) exc
              ∈ (analyze w clf data fit_time name n).1.1) ∧
    (∀ y_true yp exc,
       Call (ConfusionMatrix y_true yp) exc
         ∈ (analyze w clf data fit_time name n).1.1 ∨
       Call (AccuracyScore y_true yp) exc
         ∈ (analyze w clf data fit_time name n).1.1 →
       y_true = y (test data) ∧ yp = y_pred) ∧
    (∀ r, (analyze w clf data fit_time name n).1.2 = Ok r →
          ∃ n0, accuracy_score w n0 (y (test data)) y_pred =
                Ok (res_accuracy r)).
Proof.
  intros Hrows. exists (map f (X (test data))).
  split; [|split; [|split]].
  - intros n0. by rewrite (predict_chunks_run w clf name f Hrows).
  - apply length_map.
  - intros n0. apply Hrows.
  - unfold analyze, time_time, bind, call, print, ret.
    rewrite (predict_chunks_run w clf name f Hrows).
    cbn [fst snd raised app]. answers.
    all: split; [|split].
    all: try (eexists; apply list_elem_of_further, elem_of_app; right;
              repeat first [apply list_elem_of_here
                           |apply list_elem_of_further]).
    all: try (intros r [= <-]; eexists; cbn; eassumption).
    all: try (intros r [=]).
    all: intros y_true yp exc [H|H];
      (apply elem_of_cons in H as [H|H]; [discriminate H|]);
      (apply elem_of_app in H as [H|H];
       [apply predict_events_only in H as [? H]; discriminate H|]);
      pick H; by injection H as -> ->.
Qed.

End AnalyzeFacts.

(** ** python.py: the table *)

Module WebsiteFacts.
Import Mnist MnistOrder MnistFacts.

#[local] Instance item_le_trans : Transitive item_le.
Proof. intros a b c. unfold item_le. apply transitivity. Qed.

#[local] Instance item_le_total : Total item_le.
Proof. intros a b. unfold item_le. apply total, _. Qed.

Lemma sorted_items_perm (data : gmap string clf_data) :
  sorted_items data ≡ₚ map_to_list data.
Proof. apply merge_sort_Permutation. Qed.

Lemma sorted_items_sorted (data : gmap string clf_data) :
  StronglySorted item_le (sorted_items data).
Proof. apply StronglySorted_merge_sort; apply _. Qed.

Lemma sorted_items_names (data : gmap string clf_data) :
  NoDup (map fst (sorted_items data)).
Proof.
  rewrite sorted_items_perm. apply NoDup_fst_map_to_list.
Qed.

Lemma danger_msg_not_empty : danger_msg ≠ "".
Proof. discriminate. Qed.

Lemma danger_if_spec b :
  (danger_if b = danger_msg ↔ b = true) ∧ (danger_if b = "" ↔ b = false).
Proof. destruct b; cbn; split; split; done. Qed.

(** C9: the table that [print_website] prints has its rows in the order
    of the classifier names, and in each row the accuracy cell carries
    class="danger" exactly when the accuracy is below 0.9, the
    testing-time cell exactly when the testing time is above 5; the name
    cell and the training-time cell have no attribute slot. *)
Theorem website_rows_sorted_and_marked (w : world)
    (data : gmap string clf_data) :
  trace_of (print_website w data) =
    map Stdout (table_head ::
                concat (map (table_row w) (sorted_items data)) ++
                ["</tbody>"; "</table>"]) ∧
  sorted_items data ≡ₚ map_to_list data ∧
  StronglySorted (λ a b, String.le a.1 b.1) (sorted_items data) ∧
  NoDup (map fst (sorted_items data)) ∧
  ∀ item, item ∈ sorted_items data →
    ∃ acc_msg test_msg,
      table_row w item =
        [ "<tr>";
          tab +:+ "<td>" +:+ item.1 +:+ "</td>";
          td_right +:+ " " +:+ acc_msg +:+ ">" +:+
            str_float w (accuracy item.2) +:+ "%</td>";
          td_right +:+ ">" +:+ str_float w (training_time item.2) +:+
            "s</td>";
          td_right +:+ " " +:+ test_msg +:+ ">" +:+
            str_float w (testing_time item.2) +:+ "s</td>";
          "</tr>" ] ∧
      (acc_msg = danger_msg ↔ flt (accuracy item.2) (lit 9 1) = true) ∧
      (acc_msg = "" ↔ flt (accuracy item.2) (lit 9 1) = false) ∧
      (test_msg = danger_msg ↔ flt (of_Z 5) (testing_time item.2) = true) ∧
      (test_msg = "" ↔ flt (of_Z 5) (testing_time item.2) = false).
Proof.
  split; [|split; [|split; [|split]]].
  - unfold trace_of. by rewrite print_website_run.
  - apply sorted_items_perm.
  - apply sorted_items_sorted.
  - apply sorted_items_names.
  - intros item _.
    exists (danger_if (flt (accuracy item.2) (lit 9 1))),
           (danger_if (flt (of_Z 5) (testing_time item.2))).
    split; [reflexivity|].
    destruct (danger_if_spec (flt (accuracy item.2) (lit 9 1))).
    destruct (danger_if_spec (flt (of_Z 5) (testing_time item.2))).
    done.
Qed.

End WebsiteFacts.

(** ** python.py: what a run of [main] does *)

Module MainFacts.
Import Logic LogicFacts Mnist MnistOrder MnistFacts GtsdbStages.

Lemma main_complete (w : world) :
  result_of (main w) = Ok tt →
  ∃ data h0 cd,
    ok_from (policy w data) [] (trace_of (main w)) ∧
    clean (trace_of (main w)) ∧
    trace_of (main w) = h0 ++ map Stdout (table_lines w (sorted_items cd)) ∧
    hist 12 12 12 h0 ∧ filled w data 12 cd.
Proof.
  intros Hr. destruct (main_spec w) as (data & Hok & H). rewrite Hr in H.
  destruct H as (Hc & h0 & cd & Ht & Hh & Hcd). by exists data, h0, cd.
Qed.

(** C2: python.py has a dozen classifiers, and a run that returns called
    [fit] on each entry of the list once, in the order of the list. *)
Theorem a_dozen_classifiers_each_fitted_once (w : world) :
  result_of (main w) = Ok tt →
  length classifiers = 12%nat ∧
  fit_calls (trace_of (main w)) = classifiers ∧
  ∀ name, name ∈ map fst classifiers →
    length (filter (λ c, c.1 = name) (fit_calls (trace_of (main w)))) = 1%nat.
Proof.
  intros (data & h0 & cd & _ & _ & Ht & Hh & _)%main_complete.
  assert (Hf : fit_calls (trace_of (main w)) = classifiers).
  { rewrite Ht, fit_calls_app, fit_calls_stdout, app_nil_r.
    by destruct Hh as (_ & -> & _). }
  split; [done|]. split; [done|]. rewrite Hf. intros name Hn.
  cbn in Hn. repeat (apply elem_of_cons in Hn as [->|Hn]; [by vm_compute|]).
  by apply elem_of_nil in Hn.
Qed.

Lemma fit_calls_elem t name clf :
  (name, clf) ∈ fit_calls t → ∃ X y exc, Call (Fit name clf X y) exc ∈ t.
Proof.
  unfold fit_calls. intros (e & He & Hf)%list_elem_of_omap.
  destruct e as [line|[] exc]; try discriminate Hf.
  injection Hf as -> ->. eauto.
Qed.

Lemma clean_elem t c exc : clean t → Call c exc ∈ t → exc = None.
Proof.
  intros Hc Hin. eapply Forall_forall in Hc; [|done].
  by destruct exc.
Qed.

Lemma main_ordered (w : world) t1 e t2 :
  trace_of (main w) = t1 ++ e :: t2 → clean t1 ∧ in_order t1 e.
Proof.
  intros Ht. destruct (main_spec w) as (data & Hok & _).
  destruct (ok_from_split _ _ _ _ _ _ Hok Ht) as [Hc [Hin _]]. done.
Qed.

Lemma raise_is_last t1 c e t2 (w : world) :
  trace_of (main w) = t1 ++ Call c (Some e) :: t2 → t2 = [].
Proof.
  intros Ht. destruct t2 as [|e' t2]; [done|].
  destruct (main_ordered w (t1 ++ [Call c (Some e)]) e' t2) as [Hc _].
  { by rewrite <- app_assoc. }
  apply clean_app in Hc as [_ Hc]. by inversion Hc.
Qed.

Lemma main_uncaught (w : world) :
  uncaught (trace_of (main w)) (result_of (main w)).
Proof.
  destruct (main_spec w) as (data & Hok & H). unfold uncaught.
  destruct (result_of (main w)) as [[]|e]; [by destruct H|].
  destruct H as (t' & c & Ht). exists t', c, e, []. repeat split; auto.
  destruct (ok_from_split _ _ _ _ _ _ Hok Ht) as [Hc _]. done.
Qed.

(** C8: both scripts run in one line.
    train.py: the stages of every run are a beginning of: seed, load,
    configure, fit, evaluate, report, and those of a run that returns are
    all of them, with the calls of [full_run]: the data set is loaded, the
    network built and compiled, the model fitted by the one training call,
    which evaluates it on the validation data it is given after every
    epoch, and the metrics this call returned are written to history.csv
    before the model is saved.  The calls of every run are in the order of
    their phases.
    python.py: every event is in order given the events before it
    ([in_order]: the data set is loaded first; a classifier is fitted when
    all classifiers before it are fitted and evaluated; [predict] and the
    metrics are called on the classifier fitted last; the table is opened
    when all classifiers are fitted and evaluated, and only lines follow
    it), and a [predict] on a classifier comes after a [fit] on it that
    returned. *)
Theorem runs_are_linear (w1 : Gtsdb.world) (w2 : world) :
  Sorted le (map GtsdbOrder.phase (calls (trace_of (Gtsdb.script w1)))) ∧
  stages (trace_of (Gtsdb.script w1)) `prefix_of` linear_shape ∧
  (result_of (Gtsdb.script w1) = Ok tt →
   stages (trace_of (Gtsdb.script w1)) = linear_shape ∧
   full_run w1 (trace_of (Gtsdb.script w1))) ∧
  (∀ t1 e t2, trace_of (main w2) = t1 ++ e :: t2 →
              clean t1 ∧ in_order t1 e) ∧
  (∀ t1 name chunk exc t2,
     trace_of (main w2) = t1 ++ Call (Predict name chunk) exc :: t2 →
     ∃ clf X y, Call (Fit name clf X y) None ∈ t1).
Proof.
  split; [apply GtsdbFacts.script_phases|].
  split; [apply GtsdbFacts.script_stages_prefix|].
  split; [apply GtsdbFacts.script_full_run|].
  split; [apply main_ordered|].
  intros t1 name chunk exc t2 Ht.
  destruct (main_ordered _ _ _ _ Ht) as [Hc (_ & [clf Hl] & _)].
  apply last_Some in Hl as [l Hl].
  destruct (fit_calls_elem t1 name clf) as (X & y & x & Hin).
  { rewrite Hl. apply elem_of_app. right. by left. }
  rewrite (clean_elem _ _ _ Hc Hin) in Hin. eauto.
Qed.

(** C6: no exception is caught and nothing is tried again.  In both
    scripts a run that returns saw no exception, and a run that fails
    stops at the first call that raised (train.py still closes the file it
    opened with [with]) and fails with the exception raised last.  In
    python.py a [fit] that raises is the last event of the run, the run
    fails with its exception, and the table is never opened. *)
Theorem no_error_handling (w1 : Gtsdb.world) (w2 : world) :
  uncaught (trace_of (Gtsdb.script w1)) (result_of (Gtsdb.script w1)) ∧
  uncaught (trace_of (main w2)) (result_of (main w2)) ∧
  (∀ c exc, Call c exc ∈ trace_of (main w2) → is_close (Call c exc) = false) ∧
  (∀ name clf X y e,
     Call (Fit name clf X y) (Some e) ∈ trace_of (main w2) →
     result_of (main w2) = Raise e ∧
     last (trace_of (main w2)) = Some (Call (Fit name clf X y) (Some e)) ∧
     Stdout table_head ∉ trace_of (main w2)).
Proof.
  split; [apply GtsdbFacts.script_uncaught|]. split; [apply main_uncaught|].
  split.
  - intros c exc (t1 & t2 & Ht)%list_elem_of_split.
    destruct (main_ordered _ _ _ _ Ht) as [_ [_ Hin]]. by destruct c.
  - intros name clf X y e (t1 & t2 & Ht)%list_elem_of_split.
    pose proof (raise_is_last _ _ _ _ _ Ht) as ->.
    destruct (main_ordered _ _ _ _ Ht) as [Hc [Hh _]].
    pose proof (main_uncaught w2) as Hu. unfold uncaught in Hu.
    rewrite Ht in *. split; [|split].
    + destruct (result_of (main w2)) as [[]|e'].
      * apply clean_app in Hu as [_ Hu]. by inversion Hu.
      * destruct Hu as (u1 & c & e1 & u2 & Hu & Hc1 & _ & Hlast).
        assert (u2 = []) as ->.
        { apply (raise_is_last u1 c e1 u2 w2). by rewrite Ht. }
        apply app_inj_tail in Hu as [_ [= <- <-]]. cbn in Hlast. congruence.
    + apply last_snoc.
    + apply not_elem_snoc; [done|discriminate].
Qed.

Lemma names_nodup : NoDup (map fst classifiers).
Proof. apply (bool_decide_unpack _). by vm_compute. Qed.

End MainFacts.

(** ** The statements above, on the small worlds *)

Module Witnesses.
Import Worlds DivergedWorld Reading Artifacts GtsdbStages.

Ltac in_trace :=
  apply list_elem_of_In; vm_compute;
  repeat first [left; reflexivity | right].

Lemma create_dense_net_gets_100_classes_witness :
  Call (CreateDenseNet keras_dense_net) None ∈ trace_of (Gtsdb.script keras_ok) ∧
  nb_classes keras_dense_net = 100.
Proof.
  assert (H : Call (CreateDenseNet keras_dense_net) None
                ∈ trace_of (Gtsdb.script keras_ok)) by in_trace.
  split; [exact H|].
  destruct (GtsdbFacts.create_dense_net_gets_100_classes keras_ok _ _ H)
    as [Hn H100].
  exact (eq_trans Hn H100).
Defined.

Lemma validation_data_is_training_data_witness :
  Call (FitGenerator keras_fit_generator) None
    ∈ trace_of (Gtsdb.script keras_ok) ∧
  fg_validation_data keras_fit_generator =
    (flow_X (generator keras_fit_generator),
     flow_Y (generator keras_fit_generator)).
Proof.
  assert (H : Call (FitGenerator keras_fit_generator) None
                ∈ trace_of (Gtsdb.script keras_ok)) by in_trace.
  split; [exact H|].
  destruct (GtsdbFacts.validation_data_is_training_data keras_ok _ _ H)
    as (data & Y & cb & _ & _ & _ & _ & _ & Hv & _).
  exact Hv.
Defined.

Lemma keras_ok_history_per_epoch : GtsdbOrder.history_per_epoch keras_ok.
Proof.
  intros n m a h [= <-]. cbn. by rewrite !repeat_length.
Defined.

Lemma history_csv_and_model_file_witness :
  result_of (Gtsdb.script keras_ok) = Ok tt ∧
  ∃ h, file_calls (trace_of (Gtsdb.script keras_ok)) =
         [ OpenWrite "history.csv";
           Writerows "history.csv" [["loss"; "acc"; "val_acc"]];
           Writerows "history.csv" (Gtsdb.history_rows h);
           CloseFile "history.csv";
           Save "gtsdb.h5" ] ∧
       remove_dups (output_paths (trace_of (Gtsdb.script keras_ok))) =
         [ "weights/DenseNet-BC-100-12-gtsdb.h5"; "history.csv"; "gtsdb.h5" ] ∧
       length (Gtsdb.history_rows h) = 200%nat.
Proof.
  assert (H : result_of (Gtsdb.script keras_ok) = Ok tt)
    by (vm_compute; reflexivity).
  split; [exact H|].
  destruct (GtsdbFacts.history_csv_and_model_file keras_ok
              keras_ok_history_per_epoch H)
    as (n & m & a & h & _ & Hf & Hp & Hl & _).
  exists h. split; [exact Hf|]. split; [exact Hp|exact Hl].
Defined.

Lemma a_dozen_classifiers_each_fitted_once_witness :
  result_of (Mnist.main sklearn_ok) = Ok tt ∧
  MnistOrder.fit_calls (trace_of (Mnist.main sklearn_ok)) = Mnist.classifiers.
Proof.
  assert (H : result_of (Mnist.main sklearn_ok) = Ok tt)
    by (vm_compute; reflexivity).
  split; [exact H|].
  exact (proj1 (proj2 (MainFacts.a_dozen_classifiers_each_fitted_once
                         sklearn_ok H))).
Defined.

Lemma no_error_handling_witness :
  Call (Fit "adj. SVM"
            (SVC (Some false) "rbf" (lit 28 1) (Some (lit 73 4)) 2000)
            [[of_Z (-1)]] [of_Z 1])
       (Some (Exception "MemoryError"))
    ∈ trace_of (Mnist.main sklearn_svm_fails) ∧
  result_of (Mnist.main sklearn_svm_fails) = Raise (Exception "MemoryError") ∧
  Stdout Mnist.table_head ∉ trace_of (Mnist.main sklearn_svm_fails).
Proof.
  assert (H : Call (Fit "adj. SVM"
                      (SVC (Some false) "rbf" (lit 28 1) (Some (lit 73 4)) 2000)
                      [[of_Z (-1)]] [of_Z 1])
                   (Some (Exception "MemoryError"))
                ∈ trace_of (Mnist.main sklearn_svm_fails)) by in_trace.
  split; [exact H|].
  destruct (MainFacts.no_error_handling keras_ok sklearn_svm_fails)
    as (_ & _ & _ & Hfit).
  destruct (Hfit _ _ _ _ _ H) as (Hr & _ & Hh). split; [exact Hr|exact Hh].
Defined.

Lemma runs_are_linear_witness :
  result_of (Gtsdb.script keras_ok) = Ok tt ∧
  stages (trace_of (Gtsdb.script keras_ok)) =
    [Seeding; Loading; Configuring; Fitting; Evaluating; Reporting] ∧
  ∃ clf X y,
    Call (Fit "NN 500:200" clf X y) None
      ∈ take 9 (trace_of (Mnist.main sklearn_ok)).
Proof.
  assert (H : result_of (Gtsdb.script keras_ok) = Ok tt)
    by (vm_compute; reflexivity).
  destruct (MainFacts.runs_are_linear keras_ok sklearn_ok)
    as (_ & _ & Hfull & _ & Hfit).
  split; [exact H|]. split; [exact (proj1 (Hfull H))|].
  apply (Hfit (take 9 (trace_of (Mnist.main sklearn_ok))) "NN 500:200"
              (Mnist.scale [[of_Z 255]; [of_Z 128]]) None
              (drop 10 (trace_of (Mnist.main sklearn_ok)))).
  vm_compute. reflexivity.
Defined.

Lemma website_rows_sorted_and_marked_witness :
  ∃ acc_msg test_msg,
    MnistOrder.table_row sklearn_ok
      ("Naive Bayes", {| Mnist.training_time := lit 2 1;
                         Mnist.testing_time := lit 3 1;
                         Mnist.accuracy := lit 56 2 |}) =
      MnistOrder.row_lines sklearn_ok acc_msg test_msg
        ("Naive Bayes", {| Mnist.training_time := lit 2 1;
                           Mnist.testing_time := lit 3 1;
                           Mnist.accuracy := lit 56 2 |}) ∧
    acc_msg = Mnist.danger_msg ∧ test_msg = "".
Proof.
  destruct (WebsiteFacts.website_rows_sorted_and_marked sklearn_ok two_rows)
    as (_ & _ & _ & _ & H).
  destruct (H ("Naive Bayes", {| Mnist.training_time := lit 2 1;
                                 Mnist.testing_time := lit 3 1;
                                 Mnist.accuracy := lit 56 2 |}))
    as (acc_msg & test_msg & Hrow & Ha & _ & _ & Ht).
  { apply list_elem_of_In. vm_compute. left. reflexivity. }
  exists acc_msg, test_msg. split; [exact Hrow|]. split.
  - apply Ha. vm_compute. reflexivity.
  - apply Ht. vm_compute. reflexivity.
Defined.

Lemma chunked_predictions_cover_test_set_witness :
  ∃ y_pred,
    (∀ n0, Mnist.predict sklearn_ok n0 tt [[of_Z 1]; [of_Z 3]] = Ok y_pred) ∧
    length y_pred = 2%nat.
Proof.
  destruct (AnalyzeFacts.chunked_predictions_cover_test_set sklearn_ok tt
              {| Mnist.train := {| Mnist.X := []; Mnist.y := [] |};
                 Mnist.test := {| Mnist.X := [[of_Z 1]; [of_Z 3]];
                                  Mnist.y := [of_Z 2; of_Z 2] |} |}
              (of_Z 1) "k nn" (λ _, of_Z 2) 0%nat)
    as (y_pred & _ & Hlen & Hp & _).
  { intros n xs. reflexivity. }
  exists y_pred. split; [exact Hp|exact Hlen].
Defined.

End Witnesses.

(** ** A run in which the training diverges *)

Module Counterexamples.
Import Worlds DivergedWorld Reading Artifacts.

Ltac in_run :=
  apply list_elem_of_In; vm_compute;
  repeat first [left; reflexivity | right].

(** C4, counterexample: when the loss is not a number, the run
    returns all the same and the first cell of every row of history.csv
    reads "nan", which has no decimal places; and the run named a third
    file, the checkpoint. *)
Lemma a_diverged_loss_is_written_as_nan :
  result_of (Gtsdb.script keras_diverged) = Ok tt ∧
  (∃ rows,
     Call (Writerows "history.csv" rows) None
       ∈ trace_of (Gtsdb.script keras_diverged) ∧
     rows !! 0%nat = Some ["nan"; "0.5500"; "0.6667"] ∧
     ¬ four_decimals "nan") ∧
  "weights/DenseNet-BC-100-12-gtsdb.h5"
    ∈ output_paths (trace_of (Gtsdb.script keras_diverged)).
Proof.
  split; [by vm_compute|]. split.
  - exists (repeat ["nan"; "0.5500"; "0.6667"] (Z.to_nat 200)).
    split; [in_run|]. split; [reflexivity|].
    apply ReadingFacts.not_four_decimals_nan.
  - in_run.
Qed.

End Counterexamples.

(** ** train.py for every setting of its switches *)

Module ConfigFacts.
Import Gtsdb GtsdbConfig Artifacts.

Lemma script_for_as_written (w : world) : script_for w as_written = script w.
Proof. reflexivity. Qed.

Ltac simpl_cfg :=
  cbn -[lit of_Z fdiv astype_float32 idiv history_rows str_shape
        String.eqb String.append].

Ltac cfg_answers :=
  repeat match goal with
  | |- context [match ?x with Ok _ => _ | Raise _ => _ end] =>
      let E := fresh "E" in destruct x eqn:E; simpl_cfg
  | |- context [raised ?x] =>
      let E := fresh "E" in destruct x eqn:E; simpl_cfg
  end.

(** Follow a run of [script_for] through every switch and every answer. *)
Ltac run_cfg c :=
  destruct c as [aug smooth mt];
  unfold trace_of, result_of, script_for, build_model_for, known_model_type,
    train_augmented, train_plain, with_open, name_error, bind, call, print, ret
    in *;
  cbn [cfg_data_augmentation cfg_load_smoothed_labels cfg_model_type] in *;
  destruct aug, smooth; try discriminate;
  destruct (String.eqb mt "sequential") eqn:Hseq; try discriminate;
  destruct (String.eqb mt "dense") eqn:Hdense; try discriminate;
  simpl_cfg; cfg_answers.

Ltac pick_cfg H :=
  repeat (apply elem_of_cons in H as [H|H]; [try discriminate H|]);
  try (by apply elem_of_nil in H).

Lemma str_shape_head s : String.get 0 (str_shape s) = Some "("%char.
Proof. by destruct s as [|? [|? ?]]. Qed.

Lemma str_shape_not_model_created s : "Model created" ≠ str_shape s.
Proof.
  intros E. apply (f_equal (String.get 0)) in E.
  rewrite str_shape_head in E. discriminate E.
Qed.

(** X12: whatever the switches, the input shape given to the dense net is
    (3, 32, 32) when the backend's image ordering is "th" and (32, 32, 3)
    otherwise. *)
Theorem input_shape_follows_backend (w : world) (c : config) a exc :
  Call (CreateDenseNet a) exc ∈ trace_of (script_for w c) →
  ∃ n ordering,
    image_dim_ordering w n = Ok ordering ∧
    input_shape a = if String.eqb ordering "th"
                    then [3; 32; 32] else [32; 32; 3].
Proof.
  run_cfg c; intros H; pick_cfg H.
  all: injection H as -> _; eexists _, _; split; [eassumption|reflexivity].
Qed.

(** X13: whatever the switches, if writing rows to history.csv raises,
    the file is still closed, the run fails, and the model is not
    saved. *)
Theorem failed_write_closes_file_and_skips_save (w : world) (c : config)
    path rows e :
  Call (Writerows path rows) (Some e) ∈ trace_of (script_for w c) →
  (∃ x, Call (CloseFile "history.csv") x ∈ trace_of (script_for w c)) ∧
  (∀ p x, Call (Save p) x ∉ trace_of (script_for w c)) ∧
  (∃ e', result_of (script_for w c) = Raise e').
Proof.
  run_cfg c; intros H; pick_cfg H.
  all: split; [|split].
  all: try (eexists; reflexivity).
  all: try (intros p x H'; pick_cfg H').
  all: eexists; apply list_elem_of_In; cbn; tauto.
Qed.

(** X14: whatever the switches, if the training call raises, the run
    fails with its exception; it has not opened history.csv and has not
    saved gtsdb.h5.  The one file that can have been written is the
    checkpoint "weights/DenseNet-BC-100-12-gtsdb.h5", which keras writes
    through the callback given to [fit_generator]; without augmentation
    no callback is given, and no call of the run names a file to write. *)
Theorem failed_training_leaves_no_report (w : world) (c : config) e :
  (∃ a, Call (FitGenerator a) (Some e) ∈ trace_of (script_for w c)) ∨
  (∃ a, Call (ModelFit a) (Some e) ∈ trace_of (script_for w c)) →
  file_calls (trace_of (script_for w c)) = [] ∧
  result_of (script_for w c) = Raise e ∧
  output_paths (trace_of (script_for w c)) =
    if cfg_data_augmentation c
    then ["weights/DenseNet-BC-100-12-gtsdb.h5"] else [].
Proof.
  run_cfg c; intros [[? H]|[? H]]; pick_cfg H.
  all: by injection H as _ ->.
Qed.

(** X15: with a [model_type] other than 'sequential' and 'dense' no model
    is ever created, compiled, fitted or saved and no run returns; a run
    that gets as far as printing "Model created" has printed "Not
    implemented model '...'" and fails with the NameError of the unbound
    name [model]. *)
Theorem unknown_model_type_is_a_name_error (w : world) (c : config) :
  known_model_type c = false →
  Forall (λ e, is_model_call e = false) (trace_of (script_for w c)) ∧
  (∀ r, result_of (script_for w c) ≠ Ok r) ∧
  (Stdout "Model created" ∈ trace_of (script_for w c) →
   Stdout ("Not implemented model '" +:+ cfg_model_type c +:+ "'")
     ∈ trace_of (script_for w c) ∧
   result_of (script_for w c) =
     Raise (Exception "NameError: name 'model' is not defined")).
Proof.
  intros Hc. run_cfg c.
  all: split; [by repeat constructor|]; split; [by intros r|].
  all: intros H; pick_cfg H.
  all: try (injection H as H; by apply str_shape_not_model_created in H).
  all: split; [|reflexivity].
  all: apply list_elem_of_In; cbn; tauto.
Qed.

(** X16: with [data_augmentation] off, train.py never calls
    [fit_generator] and never touches history.csv: the only file it
    writes is gtsdb.h5.  [model.fit] validates on the images it
    trains on and on the categorical training labels. *)
Theorem without_augmentation_only_the_model_is_saved (w : world) (c : config) :
  cfg_data_augmentation c = false →
  (∀ f, f ∈ file_calls (trace_of (script_for w c)) → f = Save "gtsdb.h5") ∧
  (∀ a exc, Call (FitGenerator a) exc ∉ trace_of (script_for w c)) ∧
  (∀ a exc, Call (ModelFit a) exc ∈ trace_of (script_for w c) →
     (fit_validation_data a).1 = fit_X a ∧
     ∃ data n,
       load_data w 1 = Ok data ∧
       to_categorical w n (y_train data) nb_classes =
         Ok (fit_validation_data a).2) ∧
  (∀ r, result_of (script_for w c) = Ok r →
     file_calls (trace_of (script_for w c)) = [Save "gtsdb.h5"]).
Proof.
  intros Hc. run_cfg c.
  all: split; [|split; [|split]].
  all: try (intros f H; pick_cfg H; done).
  all: try (intros ? ? H; pick_cfg H; fail).
  all: try (by intros r).
  all: try (intros r H; discriminate H).
  all: intros ? ? H; pick_cfg H; injection H as -> _;
    cbn [fit_validation_data fit_X fst snd];
    (split; [reflexivity|]); eexists _, _;
    split; first [eassumption|reflexivity].
Qed.

(** X17: whatever the switches, a run of train.py that returns has a known
    model type and its last action is to save the model as gtsdb.h5. *)
Theorem a_run_that_returns_ends_with_save (w : world) (c : config) r :
  result_of (script_for w c) = Ok r →
  known_model_type c = true ∧
  last (trace_of (script_for w c)) = Some (Call (Save "gtsdb.h5") None) ∧
  last (file_calls (trace_of (script_for w c))) = Some (Save "gtsdb.h5").
Proof.
  run_cfg c; intros Hr; try discriminate Hr; by repeat split.
Qed.

(** X18: with [load_smoothed_labels] on, the labels trained on are the
    array loaded from smoothed_lables.npy; with augmentation they are the
    validation labels as well. *)
Theorem smoothed_labels_replace_training_labels (w : world) (c : config) :
  cfg_load_smoothed_labels c = true →
  (∀ a exc, Call (FitGenerator a) exc ∈ trace_of (script_for w c) →
     ∃ n, np_load w n "smoothed_lables.npy" = Ok (flow_Y (generator a)) ∧
          (fg_validation_data a).2 = flow_Y (generator a)) ∧
  (∀ a exc, Call (ModelFit a) exc ∈ trace_of (script_for w c) →
     ∃ n, np_load w n "smoothed_lables.npy" = Ok (fit_Y a)).
Proof.
  intros Hc. run_cfg c.
  all: split; intros ? ? H; pick_cfg H.
  all: injection H as -> _;
    cbn [generator flow_Y fg_validation_data fit_Y fst snd];
    eexists; try split; try eassumption; reflexivity.
Qed.

End ConfigFacts.

(** ** numpy arrays and the history of a training *)

Module ArrayFacts.
Import Gtsdb Float32.

Lemma pixels_checked :
  forallb (λ p, SFleb (f32 0) (SFdiv 24 128 (to_float32 (of_Z p))
                                 (binary_normalize 24 128 255 0 false)) &&
                SFleb (SFdiv 24 128 (to_float32 (of_Z p))
                         (binary_normalize 24 128 255 0 false)) (f32 1))
          (seqZ 0 256) = true.
Proof. vm_compute. reflexivity. Qed.

(** X19: [X.astype('float32')] followed by [X /= 255] keeps the shape and
    the number of cells, and takes every pixel value 0..255 into [0, 1],
    0 to 0 and 255 to 1. *)
Theorem pixels_are_scaled_into_unit_interval (a : ndarray) i p :
  flat a !! i = Some (of_Z p) → 0 <= p <= 255 →
  shape (idiv (astype_float32 a) 255) = shape a ∧
  length (flat (idiv (astype_float32 a) 255)) = length (flat a) ∧
  ∃ v, flat (idiv (astype_float32 a) 255) !! i = Some v ∧
       SFleb (f32 0) v = true ∧ SFleb v (f32 1) = true ∧
       (p = 0 → v = f32 0) ∧ (p = 255 → v = f32 1).
Proof.
  intros Hi Hp. split; [reflexivity|]. split.
  { cbn. by rewrite !length_map. }
  eexists. split.
  { cbn. rewrite !list_lookup_fmap, Hi. reflexivity. }
  pose proof pixels_checked as H. rewrite forallb_forall in H.
  specialize (H p). rewrite andb_true_iff in H.
  destruct H as [H0 H1].
  { apply list_elem_of_In, elem_of_seqZ. lia. }
  repeat split; try done.
  - intros ->. vm_compute. reflexivity.
  - intros ->. vm_compute. reflexivity.
Qed.

Lemma zip3_length {A B C} (l1 : list A) (l2 : list B) (l3 : list C) :
  length (zip3 l1 l2 l3) =
  (length l1 `min` (length l2 `min` length l3))%nat.
Proof.
  revert l2 l3. induction l1 as [|a l1 IH]; intros [|b l2] [|c l3]; cbn;
    try lia.
  rewrite IH. lia.
Qed.

(** X20: the rows written to history.csv are as many as the shortest of
    the three metric histories ([zip] stops there), and each has three
    cells. *)
Theorem history_rows_stop_at_shortest_metric (h : history) :
  length (history_rows h) =
    (length (loss h) `min` (length (acc h) `min` length (val_acc h)))%nat ∧
  Forall (λ row, length row = 3%nat) (history_rows h).
Proof.
  unfold history_rows. split.
  - by rewrite length_map, zip3_length.
  - apply Forall_fmap, Forall_forall. by intros.
Qed.

End ArrayFacts.

(** ** python.py: the chunks of the test set *)

Module ChunkFacts.
Import Mnist MnistOrder Chunks.

Lemma ceil_step (d : nat) :
  (0 < d)%nat → ((d + 127) / 128 = S ((d - 128 + 127) / 128))%nat.
Proof.
  intros Hd. destruct (decide (d < 128)%nat) as [Hs|Hs].
  - replace (d - 128 + 127)%nat with 127%nat by lia.
    rewrite (Nat.div_small 127 128) by lia.
    symmetry. apply (Nat.div_unique _ _ _ (d - 1)%nat); lia.
  - replace (d + 127)%nat with (1 * 128 + (d - 128 + 127))%nat by lia.
    rewrite Nat.div_add_l by lia. lia.
Qed.

Lemma range_from_multiples fuel start stop :
  (stop ≤ fuel + start)%nat →
  range_from fuel start stop 128 =
  map (λ k, (start + k * 128)%nat) (seq 0 ((stop - start + 127) / 128)).
Proof.
  revert start. induction fuel as [|fuel IH]; intros start H.
  - cbn. replace (stop - start + 127)%nat with 127%nat by lia. done.
  - cbn [range_from]. destruct (start <? stop)%nat eqn:Hlt.
    + apply Nat.ltb_lt in Hlt. rewrite IH by lia.
      rewrite (ceil_step (stop - start)) by lia.
      replace (stop - (start + 128))%nat with (stop - start - 128)%nat by lia.
      cbn [seq map]. f_equal; [lia|].
      rewrite <- seq_shift, map_map. apply map_ext. intros k. lia.
    + apply Nat.ltb_ge in Hlt.
      replace (stop - start + 127)%nat with 127%nat by lia. done.
Qed.

Lemma range_multiples n :
  range 0 n 128 = map (λ k, (k * 128)%nat) (seq 0 ((n + 127) / 128)).
Proof.
  unfold range. rewrite range_from_multiples by lia.
  by rewrite Nat.sub_0_r.
Qed.

Lemma chunks_eq {A} (X : list A) :
  chunks X =
  map (λ k, take 128 (drop (k * 128) X)) (seq 0 ((length X + 127) / 128)).
Proof.
  unfold chunks. rewrite range_multiples, map_map. apply map_ext.
  intros k. unfold slice. f_equal. lia.
Qed.

Lemma concat_chunks_from {A} (X : list A) fuel start :
  (length X ≤ fuel + start)%nat →
  concat (map (λ i, slice X i (i + 128))
              (range_from fuel start (length X) 128)) = drop start X.
Proof.
  revert start. induction fuel as [|fuel IH]; intros start H.
  - cbn. by rewrite drop_ge by lia.
  - cbn [range_from]. destruct (start <? length X)%nat eqn:Hlt.
    + cbn [map concat]. rewrite IH by lia. unfold slice.
      replace (start + 128 - start)%nat with 128%nat by lia.
      rewrite <- drop_drop. apply take_drop.
    + apply Nat.ltb_ge in Hlt. cbn. by rewrite drop_ge by lia.
Qed.

(** X1: the slices that [analyze] takes, [X[i:i + 128]] for [i] in
    [range(0, len(X), 128)], put together give [X] again; there are
    ceil(len(X) / 128) of them; the [j]-th holds the rows from [128 j] on,
    at least one and at most 128, and every slice but the last holds
    128. *)
Theorem chunks_partition_the_test_set {A} (X : list A) :
  concat (chunks X) = X ∧
  length (chunks X) = ((length X + 127) / 128)%nat ∧
  ∀ j c, chunks X !! j = Some c →
    c = take 128 (drop (j * 128) X) ∧
    (1 ≤ length c ≤ 128)%nat ∧
    ((S j < length (chunks X))%nat → length c = 128%nat).
Proof.
  split; [|split].
  - unfold chunks, range. rewrite concat_chunks_from by lia. apply drop_0.
  - by rewrite chunks_eq, length_map, length_seq.
  - intros j c. rewrite chunks_eq, length_map, length_seq.
    rewrite list_lookup_fmap. intros Hj.
    destruct (seq 0 ((length X + 127) / 128) !! j) as [k|] eqn:Hk;
      [|discriminate].
    apply lookup_seq in Hk as [-> Hk]. cbn in Hj. injection Hj as <-.
    split; [done|]. rewrite length_take, length_drop.
    pose proof (Nat.Div0.mul_div_le (length X + 127) 128) as Hq.
    split; lia.
Qed.

End ChunkFacts.

(** ** python.py: the runs of [analyze] *)

Module AnalyzeRuns.
Import Mnist MnistOrder Chunks ChunkFacts.

Section Loop.
Context (w : world) (clf : fitted w) (name : string) (test_X : list sample).

Lemma predict_events_chunks :
  predict_events name test_X (range 0 (length test_X) 128) =
  map (λ c, Call (Predict name c) None) (chunks test_X).
Proof. unfold predict_events, chunks. by rewrite map_map. Qed.

(** The loop over the chunks, whatever [predict] answers: it only calls
    [predict]; if it returns, it has called it on every chunk; if it
    fails, the call that raised is its last. *)
Lemma chunk_loop_any fuel start acc n t r n' :
  for_each (range_from fuel start (length test_X) 128)
    (λ predicted i,
       let chunk := slice test_X i (i + 128) in
       let! predicted_single :=
         call (Predict name chunk) (λ n, predict w n clf chunk) in
       ret (predicted ++ predicted_single))
    acc n = (t, r, n') →
  Forall (λ e, is_predict e = true) t ∧
  match r with
  | Ok _ =>
      t = predict_events name test_X
            (range_from fuel start (length test_X) 128) ∧
      n' = (n + length (range_from fuel start (length test_X) 128))%nat
  | Raise e =>
      ∃ t' chunk, t = t' ++ [Call (Predict name chunk) (Some e)] ∧ clean t'
  end.
Proof.
  revert start acc n t r n'.
  induction fuel as [|fuel IH]; intros start acc n t r n' H.
  { cbn in H. injection H as <- <- <-. split; [constructor|].
    split; [done|cbn; lia]. }
  cbn [range_from] in *. destruct (start <? length test_X)%nat.
  2:{ cbn in H. injection H as <- <- <-. split; [constructor|].
      split; [done|cbn; lia]. }
  cbn [for_each] in H. unfold bind at 1 in H. unfold bind at 1, call at 1 in H.
  destruct (predict w n clf (slice test_X start (start + 128)))
    as [answer|e]; cbn [raised ret fst snd app] in H.
  - destruct (for_each _ _ _ _) as [[t1 r1] n1] eqn:E.
    apply IH in E as [Hall Hr]. injection H as <- <- <-.
    split; [by constructor|]. destruct r1 as [r1|e].
    + destruct Hr as [-> ->]. split; [done|]. cbn [length]. lia.
    + destruct Hr as (t' & chunk & -> & Hc).
      exists (Call (Predict name (slice test_X start (start + 128))) None
              :: t'), chunk.
      split; [done|]. by constructor.
  - injection H as <- <- <-. split; [by repeat constructor|].
    exists [], (slice test_X start (start + 128)). by split; [|constructor].
Qed.

Lemma predict_chunks_any n t r n' :
  predict_chunks w clf name test_X n = (t, r, n') →
  Forall (λ e, is_predict e = true) t ∧
  match r with
  | Ok _ =>
      t = map (λ c, Call (Predict name c) None) (chunks test_X) ∧
      n' = (n + length (chunks test_X))%nat
  | Raise e =>
      ∃ t' chunk, t = t' ++ [Call (Predict name chunk) (Some e)] ∧ clean t'
  end.
Proof.
  unfold predict_chunks, range. intros [Hall Hr]%chunk_loop_any.
  split; [done|]. destruct r; [|done]. destruct Hr as [-> ->].
  fold (range 0 (length test_X) 128). rewrite predict_events_chunks.
  split; [done|]. unfold chunks. by rewrite length_map.
Qed.

End Loop.

Lemma calls_predicts name (l : list (list sample)) :
  calls (map (λ c, Call (Predict name c) None) l) = map (Predict name) l.
Proof. induction l as [|c l IH]; [done|]. cbn. by f_equal. Qed.

Lemma calls_app t1 t2 : calls (t1 ++ t2) = calls t1 ++ calls t2.
Proof. apply omap_app. Qed.

Lemma calls_cons c x t : calls (Call c x :: t) = c :: calls t.
Proof. reflexivity. Qed.

Ltac open_analyze E :=
  unfold analyze, time_time, bind, call, print, ret;
  cbn [raised fst snd app];
  destruct (predict_chunks _ _ _ _ _) as [[t1 r1] n1] eqn:E;
  apply predict_chunks_any in E as [Hall Hr];
  destruct r1 as [predicted|e1]; cbn [raised fst snd app].

Ltac analyze_answers :=
  repeat match goal with
  | |- context [match ?x with Ok _ => _ | Raise _ => _ end] =>
      let E := fresh "E" in destruct x eqn:E; cbn [fst snd raised app]
  | |- context [raised ?x] =>
      let E := fresh "E" in destruct x eqn:E; cbn [fst snd raised app]
  end.

(** X2: in a run of [analyze] that returns, the calls are: the clock,
    [predict] once on every chunk of the test samples in order, the clock,
    the confusion matrix and the accuracy on the test labels and one
    prediction array.  The testing time returned is the difference of the
    two clock readings, so it covers the predictions and not the
    metrics. *)
Theorem analyze_times_the_predictions_only
    (w : world) (clf : fitted w) (data : dataset) (fit_time : float)
    (name : string) (n : nat) (r : results) :
  (analyze w clf data fit_time name n).1.2 = Ok r →
  ∃ y_pred,
    calls (analyze w clf data fit_time name n).1.1 =
      [TimeTime] ++ map (Predict name) (chunks (X (test data))) ++
      [TimeTime; ConfusionMatrix (y (test data)) y_pred;
       AccuracyScore (y (test data)) y_pred] ∧
    res_testing_time r =
      fsub (time w (S n + length (chunks (X (test data))))) (time w n).
Proof.
  open_analyze E.
  - destruct Hr as [-> ->]. analyze_answers; intros [= <-].
    exists predicted. split; [|reflexivity].
    by rewrite calls_cons, calls_app, calls_predicts.
  - discriminate.
Qed.

(** X3: with no test sample [analyze] never calls [predict], and asks for
    the confusion matrix of the test labels and the empty prediction
    array. *)
Theorem empty_test_set_is_scored_without_predictions
    (w : world) (clf : fitted w) (data : dataset) (fit_time : float)
    (name : string) (n : nat) :
  X (test data) = [] →
  Forall (λ e, is_predict e = false)
         (analyze w clf data fit_time name n).1.1 ∧
  ∃ exc, Call (ConfusionMatrix (y (test data)) []) exc
           ∈ (analyze w clf data fit_time name n).1.1.
Proof.
  intros HX. unfold analyze, time_time, predict_chunks. rewrite HX.
  unfold bind, call, print, ret. cbn [length range range_from for_each].
  unfold ret. cbn [raised fst snd app]. analyze_answers.
  all: split; [by repeat constructor|].
  all: eexists; apply list_elem_of_In; cbn; tauto.
Qed.

(** X4: if [predict] raises on a chunk, [analyze] fails with that
    exception; it has printed nothing and called no metric: its events are
    clock readings and [predict] calls only. *)
Theorem failed_prediction_stops_the_analysis
    (w : world) (clf : fitted w) (data : dataset) (fit_time : float)
    (name : string) (n : nat) name' chunk e :
  Call (Predict name' chunk) (Some e)
    ∈ (analyze w clf data fit_time name n).1.1 →
  (analyze w clf data fit_time name n).1.2 = Raise e ∧
  Forall (λ ev, ev = Call TimeTime None ∨ is_predict ev = true)
         (analyze w clf data fit_time name n).1.1.
Proof.
  open_analyze E.
  - destruct Hr as [-> ->]. analyze_answers.
    all: intros [H|H]%elem_of_cons; [discriminate H|].
    all: apply elem_of_app in H as [H|H];
      [apply list_elem_of_fmap in H as (c & H & _); discriminate H|].
    all: repeat (apply elem_of_cons in H as [H|H]; [discriminate H|]).
    all: by apply elem_of_nil in H.
  - destruct Hr as (t' & chunk' & -> & Hc).
    intros [H|H]%elem_of_cons; [discriminate H|].
    apply elem_of_app in H as [H|H].
    + eapply Forall_forall in Hc; [|exact H]. discriminate Hc.
    + apply list_elem_of_singleton in H. injection H as _ _ <-.
      split; [done|]. constructor; [by left|].
      eapply Forall_impl; [exact Hall|]. intros ev Hev. by right.
Qed.

End AnalyzeRuns.

(** ** python.py: one round of fitting *)

Module FitFacts.
Import Mnist MnistOrder Chunks ChunkFacts AnalyzeRuns.

Lemma lines_app t1 t2 : lines (t1 ++ t2) = lines t1 ++ lines t2.
Proof. apply omap_app. Qed.

Lemma lines_predicts name (l : list (list sample)) :
  lines (map (λ c, Call (Predict name c) None) l) = [].
Proof. by induction l. Qed.

(** The second line of a run of [analyze] that returns. *)
Lemma analyze_training_time_line
    (w : world) (clf : fitted w) (data : dataset) (fit_time : float)
    (name : string) (n : nat) (r : results) :
  (analyze w clf data fit_time name n).1.2 = Ok r →
  "Training time: " +:+ format_0_4f fit_time +:+ "s"
    ∈ lines (analyze w clf data fit_time name n).1.1.
Proof.
  open_analyze E.
  - destruct Hr as [-> ->]. analyze_answers; intros [= <-].
    change (lines (?e :: ?t)) with (lines t).
    rewrite lines_app, lines_predicts.
    apply list_elem_of_In. cbn. tauto.
  - discriminate.
Qed.

(** X5: a run of [analyze] that returns has printed five lines: the
    classifier's name, the training time it was given, the testing time
    and the accuracy it returns (each with four decimals), and a confusion
    matrix. *)
Theorem analyze_prints_what_it_returns
    (w : world) (clf : fitted w) (data : dataset) (fit_time : float)
    (name : string) (n : nat) (r : results) :
  (analyze w clf data fit_time name n).1.2 = Ok r →
  ∃ cm,
    lines (analyze w clf data fit_time name n).1.1 =
      [ "Classifier: " +:+ name;
        "Training time: " +:+ format_0_4f fit_time +:+ "s";
        "Testing time: " +:+ format_0_4f (res_testing_time r) +:+ "s";
        "Confusion matrix:" +:+ nl +:+ str_matrix w cm;
        "Accuracy: " +:+ format_0_4f (res_accuracy r) ].
Proof.
  open_analyze E.
  - destruct Hr as [-> ->]. analyze_answers; intros [= <-].
    eexists. change (lines (?e :: ?t)) with (lines t).
    rewrite lines_app, lines_predicts. reflexivity.
  - discriminate.
Qed.

(** X6: one round of the loop "Fit them all" that returns has fitted the
    classifier on the first 100000 training rows; the training time it
    stores is the difference of the clock readings just before and just
    after [fit], the same value that [analyze] prints; it stores the
    testing time and accuracy [analyze] returned under the classifier's
    name and leaves the entries of other names as they were. *)
Theorem fit_one_records_the_clock_around_fit
    (w : world) (data : dataset) (cd cd' : gmap string clf_data)
    (name : string) (est : estimator) (n : nat) :
  (fit_one w data cd (name, est) n).1.2 = Ok cd' →
  ∃ clf r,
    let fit_time := fsub (time w (S (S n))) (time w n) in
    fit w (S n) est (take (Z.to_nat 100000) (X (train data)))
                    (take (Z.to_nat 100000) (y (train data))) = Ok clf ∧
    (analyze w clf data fit_time name (S (S (S n)))).1.2 = Ok r ∧
    cd' !! name = Some {| training_time := fit_time;
                          testing_time := res_testing_time r;
                          accuracy := res_accuracy r |} ∧
    (∀ other, other ≠ name → cd' !! other = cd !! other) ∧
    "Training time: " +:+ format_0_4f fit_time +:+ "s"
      ∈ lines (fit_one w data cd (name, est) n).1.1.
Proof.
  unfold fit_one, time_time, bind, call, print, ret.
  cbn [raised fst snd app].
  destruct (fit w (S n) est _ _) as [clf|e] eqn:Efit;
    cbn [raised fst snd app]; [|discriminate].
  pose proof (analyze_training_time_line w clf data
                (fsub (time w (S (S n))) (time w n)) name (S (S (S n))))
    as Hlines.
  destruct (analyze w clf data _ name (S (S (S n)))) as [[ta [r|e]] na]
    eqn:Ea; cbn [fst snd] in *; [|discriminate].
  intros [= <-]. exists clf, r. cbn zeta.
  specialize (Hlines r eq_refl).
  rewrite ?Ea. cbn [fst snd]. split; [done|]. split; [done|].
  split; [by rewrite lookup_insert_eq|].
  split; [intros other Ho; by rewrite lookup_insert_ne|].
  unfold lines in *. apply list_elem_of_omap in Hlines as (ev & Hev & Hf).
  apply list_elem_of_omap. exists ev. split; [|done].
  do 5 apply list_elem_of_further.
  first [done | apply elem_of_app; by left].
Qed.

End FitFacts.

(** ** python.py: the data of a run, and the table *)

Module DataFacts.
Import Logic LogicFacts Mnist MnistOrder MnistFacts Chunks.

(** Every run of [main] meets the policy for the data set that
    [get_data] returned. *)
Lemma main_about (w : world) (data : dataset) :
  (get_data w 0%nat).1.2 = Ok data →
  ok_from (policy w data) [] (trace_of (main w)).
Proof.
  intros Hd. unfold trace_of, main. unfold bind at 1.
  destruct (get_data_triple w data [] 0%nat) as [Hok1 Hr1];
    [constructor..|].
  destruct (get_data w 0%nat) as [[t1 r1] n1]. cbn [fst snd] in *.
  subst r1. destruct Hr1 as (Hc1 & Hall & Hl).
  destruct (fit_all_triple w data t1 n1) as [Hok2 _];
    [by apply all_load_hist|done|].
  destruct (bind _ _ n1) as [[t2 r2] n2]. cbn [fst snd app] in *.
  by apply ok_from_app.
Qed.

(** X7: in a run of [main] whose data set is loaded, every [fit] is on the
    first 100000 rows of the training set (all of it, if it has no more),
    every [predict] is on a slice of 128 rows of the test samples, and
    every metric is computed against the test labels. *)
Theorem every_classifier_sees_the_same_data (w : world) (data : dataset) :
  (get_data w 0%nat).1.2 = Ok data →
  (∀ name clf train_X train_y exc,
     Call (Fit name clf train_X train_y) exc ∈ trace_of (main w) →
     train_X = take (Z.to_nat 100000) (X (train data)) ∧
     train_y = take (Z.to_nat 100000) (y (train data)) ∧
     ((length (X (train data)) ≤ Z.to_nat 100000)%nat →
      train_X = X (train data))) ∧
  (∀ name chunk exc,
     Call (Predict name chunk) exc ∈ trace_of (main w) →
     ∃ i, chunk = slice (X (test data)) i (i + 128)) ∧
  (∀ y_true y_pred exc,
     Call (ConfusionMatrix y_true y_pred) exc ∈ trace_of (main w) ∨
     Call (AccuracyScore y_true y_pred) exc ∈ trace_of (main w) →
     y_true = y (test data)).
Proof.
  intros Hok%main_about. split; [|split].
  - intros name clf tx ty exc (t1 & t2 & Ht)%list_elem_of_split.
    destruct (ok_from_split _ _ _ _ _ _ Hok Ht) as [_ [_ [-> ->]]].
    repeat split. intros Hlen. by apply take_ge.
  - intros name chunk exc (t1 & t2 & Ht)%list_elem_of_split.
    by destruct (ok_from_split _ _ _ _ _ _ Hok Ht) as [_ [_ Ha]].
  - intros yt yp exc [(t1 & t2 & Ht)%list_elem_of_split
                     |(t1 & t2 & Ht)%list_elem_of_split].
    + by destruct (ok_from_split _ _ _ _ _ _ Hok Ht) as [_ [_ [-> _]]].
    + by destruct (ok_from_split _ _ _ _ _ _ Hok Ht) as [_ [_ [-> _]]].
Qed.

(** X8: if loading the data set fails, [main] fails with the same
    exception after the loading calls alone (fetch, shuffle, split, in
    this order, up to the one that raised): nothing is printed and no
    classifier is touched. *)
Theorem failed_loading_ends_the_run (w : world) e :
  (get_data w 0%nat).1.2 = Raise e →
  result_of (main w) = Raise e ∧
  trace_of (main w) = (get_data w 0%nat).1.1 ∧
  lines (trace_of (main w)) = [] ∧
  calls (trace_of (main w))
    `prefix_of` [FetchMldata "MNIST original"; Shuffle 0;
                 TrainTestSplit (lit 33 2) 42].
Proof.
  unfold result_of, trace_of, main. unfold bind at 1 3 5 7.
  unfold get_data, bind, call, ret. cbn [raised fst snd app].
  repeat match goal with
  | |- context [match ?x with Ok _ => _ | Raise _ => _ end] =>
      let E := fresh "E" in destruct x as [?|?] eqn:E;
      cbn [fst snd raised app]
  end.
  all: repeat match goal with x : (_ * _)%type |- _ => destruct x end.
  all: try discriminate.
  all: intros [= <-]; repeat split; try done.
  - by exists [TrainTestSplit (lit 33 2) 42].
  - by exists [Shuffle 0; TrainTestSplit (lit 33 2) 42].
Qed.

Lemma mnist_pixels_checked :
  forallb (λ p, let v := fsub (fmul (fdiv (of_Z p) (of_Z 255)) (of_Z 2))
                              (of_Z 1) in
                SFleb (of_Z (-1)) v && SFleb v (of_Z 1))
          (seqZ 0 256) = true.
Proof. vm_compute. reflexivity. Qed.

(** X9: "Scale data to [-1, 1]": [x/255.0*2 - 1] keeps the number of rows
    and their lengths, and takes every pixel value 0..255 into [-1, 1],
    0 to -1 and 255 to 1. *)
Theorem scale_maps_pixels_into_minus_one_one
    (x : list sample) (i j : nat) (row : sample) (p : Z) :
  x !! i = Some row → row !! j = Some (of_Z p) → 0 <= p <= 255 →
  length (scale x) = length x ∧
  ∃ row' v,
    scale x !! i = Some row' ∧ length row' = length row ∧
    row' !! j = Some v ∧
    SFleb (of_Z (-1)) v = true ∧ SFleb v (of_Z 1) = true ∧
    (p = 0 → v = of_Z (-1)) ∧ (p = 255 → v = of_Z 1).
Proof.
  unfold sample in *. intros Hi Hj Hp. split; [apply length_map|].
  unfold scale. eexists _, _. split.
  { rewrite list_lookup_fmap, Hi. reflexivity. }
  split; [apply length_map|]. split.
  { rewrite list_lookup_fmap, Hj. reflexivity. }
  pose proof mnist_pixels_checked as H. rewrite forallb_forall in H.
  specialize (H p). cbn zeta in H. rewrite andb_true_iff in H.
  destruct H as [H0 H1].
  { apply list_elem_of_In, elem_of_seqZ. lia. }
  repeat split; try done.
  - intros ->. vm_compute. reflexivity.
  - intros ->. vm_compute. reflexivity.
Qed.

End DataFacts.

Module TableFacts.
Import Mnist MnistOrder MnistFacts.

Lemma length_concat_rows (w : world) items :
  length (concat (map (table_row w) items)) = (6 * length items)%nat.
Proof.
  induction items as [|item items IH]; [done|].
  cbn [map concat]. rewrite length_app, IH. cbn. lia.
Qed.

(** X10: [print_website] calls no library and cannot fail; it prints three
    lines around six lines per entry of the dictionary, so for the empty
    dictionary the head and the two closing lines only. *)
Theorem print_website_only_prints (w : world) (data : gmap string clf_data)
    (n : nat) :
  (print_website w data n).1.2 = Ok tt ∧
  (print_website w data n).2 = n ∧
  calls (print_website w data n).1.1 = [] ∧
  length (print_website w data n).1.1 = (6 * size data + 3)%nat ∧
  (data = ∅ →
   (print_website w data n).1.1 =
     [Stdout table_head; Stdout "</tbody>"; Stdout "</table>"]).
Proof.
  rewrite print_website_run. cbn [fst snd]. split; [done|]. split; [done|].
  split; [|split].
  - generalize (table_lines w (sorted_items data)). intros l.
    by induction l.
  - unfold table_lines. rewrite length_map. cbn [length].
    rewrite length_app, length_concat_rows.
    rewrite WebsiteFacts.sorted_items_perm, length_map_to_list. cbn. lia.
  - intros ->. unfold sorted_items. by rewrite map_to_list_empty.
Qed.

(** X11: the comparisons of [print_website] are strict and false for NaN:
    an accuracy that is NaN or exactly 0.9, and a testing time that is NaN
    or exactly 5, get no class="danger". *)
Theorem nan_and_threshold_values_are_not_marked (w : world)
    (item : string * clf_data) :
  (accuracy item.2 = S754_nan ∨ accuracy item.2 = lit 9 1) →
  (testing_time item.2 = S754_nan ∨ testing_time item.2 = of_Z 5) →
  table_row w item = row_lines w "" "" item.
Proof.
  unfold table_row. intros [-> | ->] [-> | ->]; reflexivity.
Qed.

End TableFacts.

(** ** python.py: what every round reports *)

Module RoundFacts.
Import Mnist MnistOrder MnistRounds Chunks ChunkFacts AnalyzeRuns MnistFacts.

Lemma matrix_lines_app t1 t2 :
  matrix_lines (t1 ++ t2) = matrix_lines t1 ++ matrix_lines t2.
Proof. apply omap_app. Qed.

Lemma matrix_lines_predicts name (l : list (list sample)) :
  matrix_lines (map (λ c, Call (Predict name c) None) l) = [].
Proof. by induction l. Qed.

Lemma matrix_lines_quiet lines :
  Forall no_matrix_line lines → matrix_lines (map Stdout lines) = [].
Proof.
  induction 1 as [|line lines Hl _ IH]; [done|].
  unfold no_matrix_line in Hl. cbn. by rewrite Hl.
Qed.

Lemma count_matrix_lines t :
  count is_matrix_line t = length (matrix_lines t).
Proof.
  unfold count. induction t as [|[line|c x] t IH]; cbn; [done| |done].
  destruct (String.prefix _ line); cbn; by rewrite IH.
Qed.

Lemma matrix_lines_call c x t :
  matrix_lines (Call c x :: t) = matrix_lines t.
Proof. reflexivity. Qed.

Lemma matrix_lines_matrix s t :
  matrix_lines (Stdout ("Confusion matrix:" +:+ nl +:+ s) :: t)
    = ("Confusion matrix:" +:+ nl +:+ s) :: matrix_lines t.
Proof. reflexivity. Qed.

(** The lines of a round: one confusion matrix. *)
Lemma matrix_lines_round t1 c x s t2 :
  matrix_lines t1 = [] → matrix_lines t2 = [] →
  matrix_lines
    (t1 ++ Call c x :: Stdout ("Confusion matrix:" +:+ nl +:+ s) :: t2)
    = ["Confusion matrix:" +:+ nl +:+ s].
Proof.
  intros H1 H2.
  by rewrite matrix_lines_app, H1, matrix_lines_call, matrix_lines_matrix, H2.
Qed.

Lemma fit_calls_time x t : fit_calls (Call TimeTime x :: t) = fit_calls t.
Proof. reflexivity. Qed.

Lemma evaluations_time x t :
  evaluations (Call TimeTime x :: t) = evaluations t.
Proof. reflexivity. Qed.

Lemma fit_calls_predicts name (l : list (list sample)) :
  fit_calls (map (λ c, Call (Predict name c) None) l) = [].
Proof. by induction l. Qed.

Lemma evaluations_predicts name (l : list (list sample)) :
  evaluations (map (λ c, Call (Predict name c) None) l) = 0%nat.
Proof. by induction l. Qed.

Lemma evaluations_app t1 t2 :
  evaluations (t1 ++ t2) = (evaluations t1 + evaluations t2)%nat.
Proof. apply count_app. Qed.

Section Round.
Context (w : world) (data : dataset).

Let c := n_chunks data.

(** A run of [analyze] that returns, call by call. *)
Lemma analyze_run clf fit_time name n t r n' :
  analyze w clf data fit_time name n = (t, Ok r, n') →
  ∃ y_pred cm t1 t2,
    (predict_chunks w clf name (X (test data)) (S n)).1.2 = Ok y_pred ∧
    confusion_matrix w (S (S n + c)) (y (test data)) y_pred = Ok cm ∧
    accuracy_score w (S (S (S n + c))) (y (test data)) y_pred
      = Ok (res_accuracy r) ∧
    res_testing_time r = fsub (time w (S n + c)) (time w n) ∧
    n' = S (S (S (S n + c))) ∧
    t = t1 ++ Call (ConfusionMatrix (y (test data)) y_pred) None
           :: Stdout ("Confusion matrix:" +:+ nl +:+ str_matrix w cm) :: t2 ∧
    matrix_lines t1 = [] ∧ matrix_lines t2 = [] ∧
    fit_calls t = [] ∧ evaluations t = 1%nat.
Proof.
  unfold analyze, time_time, bind, call, print, ret.
  cbn [raised fst snd app].
  destruct (predict_chunks w clf name (X (test data)) (S n))
    as [[tp rp] np] eqn:E.
  pose proof (predict_chunks_any _ _ _ _ _ _ _ _ E) as [_ Hr].
  destruct rp as [predicted|e]; cbn [raised fst snd app]; [|discriminate].
  destruct Hr as [-> ->]. fold c. analyze_answers; intros [= <- <- <-].
  exists predicted, a.
  eexists (Call TimeTime None
           :: map (λ c, Call (Predict name c) None) (chunks (X (test data)))
              ++ [_; _; _; _]), [_; _].
  split; [reflexivity|]. split; [assumption|]. split; [assumption|].
  split; [reflexivity|]. split; [reflexivity|].
  split; [cbn [app]; rewrite <- app_assoc; reflexivity|].
  split.
  { rewrite matrix_lines_call, matrix_lines_app, matrix_lines_predicts.
    reflexivity. }
  split; [reflexivity|].
  split.
  - rewrite fit_calls_time, fit_calls_app, fit_calls_predicts. reflexivity.
  - rewrite evaluations_time, evaluations_app, evaluations_predicts.
    reflexivity.
Qed.

(** One round of the loop that returns. *)
Lemma fit_one_run cd name est n t cd' n' :
  fit_one w data cd (name, est) n = (t, Ok cd', n') →
  ∃ y_pred line d t1 t2,
    report_at w data n (name, est) y_pred line d ∧
    cd' = <[name := d]> cd ∧
    n' = (n + (7 + c))%nat ∧
    t = t1 ++ Call (ConfusionMatrix (y (test data)) y_pred) None
           :: Stdout line :: t2 ∧
    matrix_lines t1 = [] ∧ matrix_lines t2 = [] ∧
    fit_calls t = [(name, est)] ∧ evaluations t = 1%nat.
Proof.
  unfold fit_one, time_time, bind, call, print, ret.
  cbn [raised fst snd app].
  destruct (fit w (S n) est _ _) as [clf|e] eqn:Efit;
    cbn [raised fst snd app]; [|discriminate].
  destruct (analyze w clf data _ name (S (S (S n)))) as [[ta [r|e]] na]
    eqn:Ea; [|discriminate].
  intros [= <- <- <-].
  apply analyze_run in Ea
    as (y_pred & cm & t1 & t2 & Hp & Hcm & Hacc & Htest & -> & -> &
        Ht1 & Ht2 & Hfit & Hev).
  rewrite app_nil_r.
  exists y_pred, ("Confusion matrix:" +:+ nl +:+ str_matrix w cm).
  eexists {| training_time := _; testing_time := _; accuracy := _ |}.
  eexists (_ :: _ :: _ :: _ :: _ :: t1), t2.
  split.
  { exists clf, cm. cbn [fst snd training_time testing_time accuracy].
    replace (n + 1)%nat with (S n) by lia.
    replace (n + 2)%nat with (S (S n)) by lia.
    replace (n + 3)%nat with (S (S (S n))) by lia.
    replace (n + 4)%nat with (S (S (S (S n)))) by lia.
    replace (n + 5 + n_chunks data)%nat
      with (S (S (S (S (S n))) + c)) by (subst c; lia).
    replace (n + 6 + n_chunks data)%nat
      with (S (S (S (S (S (S n))) + c))) by (subst c; lia).
    replace (n + 4 + n_chunks data)%nat
      with (S (S (S (S n))) + c)%nat by (subst c; lia).
    split; [exact Efit|]. split; [exact Hp|]. split; [exact Hcm|].
    split; [reflexivity|]. split; [exact Hacc|].
    split; [reflexivity|]. exact Htest. }
  split; [reflexivity|]. split; [subst c; lia|].
  split; [reflexivity|].
  split; [exact Ht1|].
  split; [exact Ht2|].
  split.
  - change (fit_calls (?a :: ?b :: ?x :: ?f :: ?y :: ?t))
      with (fit_calls [f] ++ fit_calls t).
    rewrite Hfit. reflexivity.
  - change (evaluations (?a :: ?b :: ?x :: ?f :: ?y :: ?t))
      with (evaluations t).
    exact Hev.
Qed.

(** The loop over a list of classifiers with distinct names. *)
Lemma fit_all_run l : ∀ cd n t cd' n',
  NoDup (map fst l) →
  for_each l (fit_one w data) cd n = (t, Ok cd', n') →
  n' = (n + length l * (7 + c))%nat ∧
  fit_calls t = l ∧ evaluations t = length l ∧
  length (matrix_lines t) = length l ∧
  (∀ name, name ∉ map fst l → cd' !! name = cd !! name) ∧
  ∀ k cl, l !! k = Some cl →
    ∃ y_pred line d t1 t2,
      report_at w data (n + k * (7 + c)) cl y_pred line d ∧
      cd' !! cl.1 = Some d ∧
      t = t1 ++ Call (ConfusionMatrix (y (test data)) y_pred) None
             :: Stdout line :: t2 ∧
      length (matrix_lines t1) = k.
Proof.
  induction l as [|[name est] l IH]; intros cd n t cd' n' Hnd.
  { intros [= <- <- <-]. repeat split; first [done | cbn; lia]. }
  cbn [for_each]. unfold bind at 1.
  destruct (fit_one w data cd (name, est) n) as [[t0 [cd0|e]] n0] eqn:E0;
    [|discriminate].
  destruct (for_each l (fit_one w data) cd0 n0) as [[tr rr] nr] eqn:Er.
  intros [= <- -> <-].
  apply NoDup_cons in Hnd as [Hname Hnd].
  apply fit_one_run in E0
    as (y_pred & line & d & t1 & t2 & Hrep & -> & -> & -> & Ht1 & Ht2 &
        Hfit & Hev).
  destruct (IH _ _ _ _ _ Hnd Er) as (-> & Hfits & Hevs & Hlines & Hframe & Hall).
  split; [cbn [length]; lia|].
  split; [by rewrite fit_calls_app, Hfit, Hfits|].
  split; [by rewrite evaluations_app, Hev, Hevs|].
  pose proof Hrep as (clf0 & cm0 & _ & _ & _ & Hline & _).
  assert (Hround :
    matrix_lines (t1 ++ Call (ConfusionMatrix (y (test data)) y_pred) None
                     :: Stdout line :: t2) = [line]).
  { rewrite Hline. by apply matrix_lines_round. }
  split; [by rewrite matrix_lines_app, Hround, length_app, Hlines|].
  split.
  { intros other Ho. cbn in Ho. apply not_elem_of_cons in Ho as [Hne Ho].
    rewrite (Hframe _ Ho). by rewrite lookup_insert_ne. }
  intros [|k] cl Hk.
  - injection Hk as <-. exists y_pred, line, d, t1, (t2 ++ tr).
    split; [by rewrite Nat.add_0_r|].
    split; [rewrite (Hframe _ Hname); by rewrite lookup_insert_eq|].
    split; [by rewrite <- app_assoc|]. by rewrite Ht1.
  - destruct (Hall _ _ Hk) as (y_pred' & line' & d' & t1' & t2' &
                              Hrep' & Hcd' & -> & Hlen).
    exists y_pred', line', d'.
    exists ((t1 ++ Call (ConfusionMatrix (y (test data)) y_pred) None
               :: Stdout line :: t2) ++ t1'), t2'.
    split.
    { replace (n + S k * (7 + c))%nat with (n + (7 + c) + k * (7 + c))%nat
        by lia. exact Hrep'. }
    split; [exact Hcd'|].
    split; [apply app_assoc|].
    by rewrite matrix_lines_app, Hround, length_app, Hlen.
Qed.

End Round.

Lemma get_data_run (w : world) n t data n' :
  get_data w n = (t, Ok data, n') →
  n' = (n + 3)%nat ∧ matrix_lines t = [] ∧ fit_calls t = [] ∧
  evaluations t = 0%nat.
Proof.
  unfold get_data, bind, call, ret. cbn [raised fst snd app].
  analyze_answers; try discriminate.
  repeat match goal with x : (_ * _)%type |- _ => destruct x end.
  intros [= <- <- <-]. repeat split; try reflexivity. lia.
Qed.

End RoundFacts.

(** ** python.py: the report of a run *)

Module ReportFacts.
Import Mnist MnistOrder MnistRounds MnistFacts MainFacts RoundFacts.

(** A run of [main] that returns: the loading, the twelve rounds, the
    table. *)
Lemma main_run (w : world) :
  result_of (main w) = Ok tt →
  ∃ data cd tg tf nf,
    get_data w 0%nat = (tg, Ok data, 3%nat) ∧
    for_each classifiers (fit_one w data) ∅ 3%nat = (tf, Ok cd, nf) ∧
    trace_of (main w) =
      (tg ++ tf) ++ map Stdout (table_lines w (sorted_items cd)) ∧
    matrix_lines tg = [] ∧ fit_calls tg = [] ∧ evaluations tg = 0%nat.
Proof.
  unfold result_of, trace_of, main. unfold bind at 1 3.
  destruct (get_data w 0%nat) as [[tg [data|e]] ng] eqn:Eg; [|discriminate].
  unfold bind.
  destruct (for_each classifiers (fit_one w data) ∅ ng)
    as [[tf [cd|e]] nf] eqn:Ef; [|discriminate].
  rewrite print_website_run. cbn [fst snd]. intros _.
  destruct (get_data_run _ _ _ _ _ Eg) as (-> & Hm & Hf & He).
  exists data, cd, tg, tf, nf. by rewrite app_assoc.
Qed.

Lemma matrix_lines_table (w : world) items :
  matrix_lines (map Stdout (table_lines w items)) = [].
Proof.
  apply matrix_lines_quiet. unfold table_lines.
  constructor; [reflexivity|apply table_rows_no_matrix_line].
Qed.

(** C5: python.py reports on standard output only.  No call of a run
    creates or writes a file.  In a run that returns, with the data set
    that [get_data] returned: for the [k]-th classifier of the list, the
    [k]-th confusion-matrix line of the run comes right after the call
    that compared the test labels with the predictions collected chunk by
    chunk from the classifier that was fitted in that round, and shows the
    matrix this call returned; there are as many such lines as
    classifiers.  The run ends with the table, printed after all
    classifiers were fitted and evaluated, with one row per classifier;
    the row of a classifier holds the accuracy of its predictions against
    the test labels, the time on the clock around its [fit] and the time
    on the clock around its predictions. *)
Theorem report_goes_to_stdout (w : world) :
  (∀ c exc, Call c exc ∈ trace_of (main w) → is_file_call c = false) ∧
  (result_of (main w) = Ok tt →
   ∃ data cd h0,
     (get_data w 0%nat).1.2 = Ok data ∧
     trace_of (main w) = h0 ++ map Stdout (table_lines w (sorted_items cd)) ∧
     fit_calls h0 = classifiers ∧
     evaluations h0 = length classifiers ∧
     count is_matrix_line (trace_of (main w)) = length classifiers ∧
     map fst (sorted_items cd) ≡ₚ map fst classifiers ∧
     ∀ k c, classifiers !! k = Some c →
       ∃ y_pred line d t1 t2,
         round_report w data k c y_pred line d ∧
         (c.1, d) ∈ sorted_items cd ∧
         h0 = t1 ++ Call (ConfusionMatrix (y (test data)) y_pred) None
                 :: Stdout line :: t2 ∧
         length (matrix_lines t1) = k).
Proof.
  split.
  { intros c exc (t1 & t2 & Ht)%list_elem_of_split.
    destruct (main_ordered _ _ _ _ Ht) as [_ [_ Hin]]. by destruct c. }
  intros (data & cd & tg & tf & nf & Hg & Hf & Ht & Hm & Hfg & Heg)%main_run.
  destruct (fit_all_run w data _ _ _ _ _ _ names_nodup Hf)
    as (_ & Hfits & Hevs & Hlines & Hframe & Hall).
  assert (Hrows : ∀ k c, classifiers !! k = Some c →
    ∃ y_pred line d t1 t2,
      round_report w data k c y_pred line d ∧
      cd !! c.1 = Some d ∧
      tg ++ tf = t1 ++ Call (ConfusionMatrix (y (test data)) y_pred) None
                    :: Stdout line :: t2 ∧
      length (matrix_lines t1) = k).
  { intros k c Hk.
    destruct (Hall _ _ Hk) as (y_pred & line & d & t1 & t2 & Hr & Hcd & -> & Hl).
    exists y_pred, line, d, (tg ++ t1), t2.
    split; [exact Hr|]. split; [exact Hcd|].
    split; [by rewrite <- app_assoc|].
    by rewrite matrix_lines_app, Hm. }
  exists data, cd, (tg ++ tf).
  split; [by rewrite Hg|]. split; [exact Ht|].
  split; [by rewrite fit_calls_app, Hfg, Hfits|].
  split; [by rewrite evaluations_app, Heg, Hevs|].
  split.
  { rewrite count_matrix_lines, Ht, !matrix_lines_app, Hm,
      matrix_lines_table, app_nil_r. exact Hlines. }
  split.
  { apply NoDup_Permutation;
      [apply WebsiteFacts.sorted_items_names|apply names_nodup|].
    intros name. rewrite WebsiteFacts.sorted_items_perm.
    rewrite list_elem_of_fmap. split.
    - intros ([name' d] & -> & H%elem_of_map_to_list). cbn [fst].
      destruct (decide (name' ∈ map fst classifiers)) as [|Hn]; [done|].
      rewrite (Hframe _ Hn) in H. by rewrite lookup_empty in H.
    - intros (c & -> & (k & Hk)%list_elem_of_lookup_1)%list_elem_of_fmap.
      destruct (Hrows _ _ Hk) as (? & ? & d & ? & ? & _ & Hcd & _).
      exists (c.1, d). by rewrite elem_of_map_to_list. }
  intros k c Hk.
  destruct (Hrows _ _ Hk) as (y_pred & line & d & t1 & t2 & Hr & Hcd & Hh & Hl).
  exists y_pred, line, d, t1, t2.
  split; [exact Hr|]. split; [|by split].
  by rewrite WebsiteFacts.sorted_items_perm, elem_of_map_to_list.
Qed.

End ReportFacts.

(** ** The statements above, on small worlds *)

Module MoreWitnesses.
Import Worlds MoreWorlds GtsdbConfig Chunks ConfigFacts Artifacts MnistRounds.

Ltac in_list :=
  apply list_elem_of_In; vm_compute;
  repeat first [left; reflexivity | right].

Lemma input_shape_follows_backend_witness :
  Call (CreateDenseNet keras_dense_net) None
    ∈ trace_of (script_for keras_ok as_written) ∧
  ∃ n ordering,
    Gtsdb.image_dim_ordering keras_ok n = Ok ordering ∧
    input_shape keras_dense_net =
      if String.eqb ordering "th" then [3; 32; 32] else [32; 32; 3].
Proof.
  assert (H : Call (CreateDenseNet keras_dense_net) None
                ∈ trace_of (script_for keras_ok as_written)) by in_list.
  split; [exact H|].
  exact (input_shape_follows_backend keras_ok as_written _ _ H).
Defined.

Lemma failed_write_closes_file_and_skips_save_witness :
  Call (Writerows "history.csv"
          (Gtsdb.history_rows
             {| Gtsdb.loss := repeat (lit 23 1) 200;
                Gtsdb.acc := repeat (lit 55 2) 200;
                Gtsdb.val_acc := repeat (lit 66666 5) 200 |}))
       (Some (Exception "IOError: No space left on device"))
    ∈ trace_of (script_for keras_disk_full as_written) ∧
  ∃ x, Call (CloseFile "history.csv") x
         ∈ trace_of (script_for keras_disk_full as_written).
Proof.
  assert (H : Call (Writerows "history.csv"
                      (Gtsdb.history_rows
                         {| Gtsdb.loss := repeat (lit 23 1) 200;
                            Gtsdb.acc := repeat (lit 55 2) 200;
                            Gtsdb.val_acc := repeat (lit 66666 5) 200 |}))
                   (Some (Exception "IOError: No space left on device"))
                ∈ trace_of (script_for keras_disk_full as_written))
    by in_list.
  split; [exact H|].
  exact (proj1 (failed_write_closes_file_and_skips_save
                  keras_disk_full as_written _ _ _ H)).
Defined.

Lemma failed_training_leaves_no_report_witness :
  file_calls (trace_of (script_for keras_fit_fails as_written)) = [] ∧
  result_of (script_for keras_fit_fails as_written)
    = Raise (Exception "MemoryError") ∧
  output_paths (trace_of (script_for keras_fit_fails as_written))
    = ["weights/DenseNet-BC-100-12-gtsdb.h5"].
Proof.
  apply (failed_training_leaves_no_report
           keras_fit_fails as_written).
  left. exists keras_fit_generator. apply list_elem_of_In. vm_compute.
  repeat first [left; reflexivity | right].
Defined.

Lemma unknown_model_type_is_a_name_error_witness :
  known_model_type unknown_model = false ∧
  ∀ r, result_of (script_for keras_ok unknown_model) ≠ Ok r.
Proof.
  assert (H : known_model_type unknown_model = false)
    by (vm_compute; reflexivity).
  split; [exact H|].
  exact (proj1 (proj2 (unknown_model_type_is_a_name_error
                         keras_ok unknown_model H))).
Defined.

Lemma without_augmentation_only_the_model_is_saved_witness :
  result_of (script_for keras_ok plain_training) = Ok tt ∧
  file_calls (trace_of (script_for keras_ok plain_training)) =
    [Save "gtsdb.h5"].
Proof.
  assert (H : result_of (script_for keras_ok plain_training) = Ok tt)
    by (vm_compute; reflexivity).
  split; [exact H|].
  destruct (without_augmentation_only_the_model_is_saved
              keras_ok plain_training eq_refl) as (_ & _ & _ & Hs).
  exact (Hs tt H).
Defined.

Lemma a_run_that_returns_ends_with_save_witness :
  result_of (script_for keras_ok as_written) = Ok tt ∧
  last (trace_of (script_for keras_ok as_written)) =
    Some (Call (Save "gtsdb.h5") None).
Proof.
  assert (H : result_of (script_for keras_ok as_written) = Ok tt)
    by (vm_compute; reflexivity).
  split; [exact H|].
  exact (proj1 (proj2 (a_run_that_returns_ends_with_save
                         keras_ok as_written tt H))).
Defined.

Lemma smoothed_labels_replace_training_labels_witness :
  ∃ a, Call (FitGenerator a) None
         ∈ trace_of (script_for keras_ok smoothed_training) ∧
       ∃ n, Gtsdb.np_load keras_ok n "smoothed_lables.npy" =
              Ok (flow_Y (generator a)).
Proof.
  assert (H : Call (FitGenerator keras_fit_generator) None
                ∈ trace_of (script_for keras_ok smoothed_training))
    by in_list.
  exists keras_fit_generator. split; [exact H|].
  destruct (smoothed_labels_replace_training_labels
              keras_ok smoothed_training eq_refl) as [Hg _].
  destruct (Hg _ _ H) as (n & Hn & _). exists n. exact Hn.
Defined.

Lemma pixels_are_scaled_into_unit_interval_witness :
  ∃ v, flat (Gtsdb.idiv (Gtsdb.astype_float32 keras_x) 255) !! 1%nat = Some v ∧
       v = Float32.f32 1.
Proof.
  destruct (ArrayFacts.pixels_are_scaled_into_unit_interval keras_x 1%nat 255)
    as (_ & _ & v & Hv & _ & _ & _ & H255).
  { reflexivity. }
  { lia. }
  exists v. split; [exact Hv|]. apply H255. reflexivity.
Defined.

Lemma chunks_partition_the_test_set_witness :
  chunks (repeat 7 300) !! 2%nat = Some (repeat 7 44) ∧
  (1 ≤ length (repeat 7 44) ≤ 128)%nat.
Proof.
  assert (H : chunks (repeat 7 300) !! 2%nat = Some (repeat 7 44))
    by (vm_compute; reflexivity).
  split; [exact H|].
  destruct (ChunkFacts.chunks_partition_the_test_set (repeat 7 300))
    as (_ & _ & Hc).
  exact (proj1 (proj2 (Hc _ _ H))).
Defined.

Lemma analyze_times_the_predictions_only_witness :
  ∃ r y_pred,
    (Mnist.analyze sklearn_ok tt three_chunks (of_Z 1) "k nn" 4%nat).1.2 = Ok r ∧
    calls (Mnist.analyze sklearn_ok tt three_chunks (of_Z 1) "k nn" 4%nat).1.1 =
      [TimeTime] ++
      map (Predict "k nn") (chunks (Mnist.X (Mnist.test three_chunks))) ++
      [TimeTime; ConfusionMatrix (Mnist.y (Mnist.test three_chunks)) y_pred;
       AccuracyScore (Mnist.y (Mnist.test three_chunks)) y_pred] ∧
    Mnist.res_testing_time r = of_Z 4.
Proof.
  assert (H : (Mnist.analyze sklearn_ok tt three_chunks (of_Z 1) "k nn" 4%nat).1.2
              = Ok {| Mnist.res_testing_time := of_Z 4;
                      Mnist.res_accuracy := lit 5 1 |})
    by (vm_compute; reflexivity).
  destruct (AnalyzeRuns.analyze_times_the_predictions_only _ _ _ _ _ _ _ H)
    as (y_pred & Hc & _).
  eexists _, y_pred. split; [exact H|]. split; [exact Hc|reflexivity].
Defined.

Lemma empty_test_set_is_scored_without_predictions_witness :
  ∃ exc, Call (ConfusionMatrix [] []) exc
           ∈ (Mnist.analyze sklearn_ok tt MnistOrder.no_data (of_Z 1)
                "k nn" 0%nat).1.1.
Proof.
  exact (proj2 (AnalyzeRuns.empty_test_set_is_scored_without_predictions
                  sklearn_ok tt MnistOrder.no_data (of_Z 1) "k nn" 0%nat
                  eq_refl)).
Defined.

Lemma failed_prediction_stops_the_analysis_witness :
  (Mnist.analyze sklearn_predict_fails tt sklearn_data (of_Z 1) "k nn" 0%nat).1.2
    = Raise (Exception "ValueError").
Proof.
  apply (AnalyzeRuns.failed_prediction_stops_the_analysis
           sklearn_predict_fails tt sklearn_data (of_Z 1) "k nn" 0%nat
           "k nn" (Mnist.X (Mnist.test sklearn_data))).
  in_list.
Defined.

Lemma analyze_prints_what_it_returns_witness :
  ∃ cm,
    lines (Mnist.analyze sklearn_ok tt sklearn_data (of_Z 1) "k nn" 0%nat).1.1 =
      [ "Classifier: k nn"; "Training time: 1.0000s";
        "Testing time: 2.0000s";
        "Confusion matrix:" +:+ nl +:+ Mnist.str_matrix sklearn_ok cm;
        "Accuracy: 0.5000" ].
Proof.
  destruct (FitFacts.analyze_prints_what_it_returns
              sklearn_ok tt sklearn_data (of_Z 1) "k nn" 0%nat
              {| Mnist.res_testing_time := of_Z 2;
                 Mnist.res_accuracy := lit 5 1 |}) as [cm H].
  { vm_compute. reflexivity. }
  exists cm. exact H.
Defined.

Lemma fit_one_records_the_clock_around_fit_witness :
  ∃ cd' clf r,
    (Mnist.fit_one sklearn_ok sklearn_data ∅ ("k nn", KNeighborsClassifier 3)
       0%nat).1.2 = Ok cd' ∧
    Mnist.fit sklearn_ok 1%nat (KNeighborsClassifier 3)
      (take (Z.to_nat 100000) (Mnist.X (Mnist.train sklearn_data)))
      (take (Z.to_nat 100000) (Mnist.y (Mnist.train sklearn_data))) = Ok clf ∧
    cd' !! "k nn" =
      Some {| Mnist.training_time := fsub (of_Z 2) (of_Z 0);
              Mnist.testing_time := Mnist.res_testing_time r;
              Mnist.accuracy := Mnist.res_accuracy r |}.
Proof.
  destruct (Mnist.fit_one sklearn_ok sklearn_data ∅
              ("k nn", KNeighborsClassifier 3) 0%nat).1.2 as [cd'|e] eqn:E;
    [|vm_compute in E; discriminate E].
  destruct (FitFacts.fit_one_records_the_clock_around_fit _ _ _ _ _ _ _ E)
    as (clf & r & Hf & _ & Hl & _).
  exists cd', clf, r. split; [reflexivity|]. split; [exact Hf|exact Hl].
Defined.

Lemma every_classifier_sees_the_same_data_witness :
  (Mnist.get_data sklearn_ok 0%nat).1.2 = Ok sklearn_data ∧
  ∀ y_true y_pred exc,
    Call (ConfusionMatrix y_true y_pred) exc ∈ trace_of (Mnist.main sklearn_ok) ∨
    Call (AccuracyScore y_true y_pred) exc ∈ trace_of (Mnist.main sklearn_ok) →
    y_true = Mnist.y (Mnist.test sklearn_data).
Proof.
  assert (H : (Mnist.get_data sklearn_ok 0%nat).1.2 = Ok sklearn_data)
    by (vm_compute; reflexivity).
  split; [exact H|].
  exact (proj2 (proj2 (DataFacts.every_classifier_sees_the_same_data
                         sklearn_ok sklearn_data H))).
Defined.

Lemma failed_loading_ends_the_run_witness :
  result_of (Mnist.main sklearn_offline) = Raise (Exception "IOError") ∧
  lines (trace_of (Mnist.main sklearn_offline)) = [].
Proof.
  destruct (DataFacts.failed_loading_ends_the_run sklearn_offline
              (Exception "IOError")) as (Hr & _ & Hl & _).
  { vm_compute. reflexivity. }
  split; [exact Hr|exact Hl].
Defined.

Lemma scale_maps_pixels_into_minus_one_one_witness :
  ∃ row' v,
    Mnist.scale [[of_Z 0; of_Z 255]] !! 0%nat = Some row' ∧
    row' !! 1%nat = Some v ∧ v = of_Z 1.
Proof.
  destruct (DataFacts.scale_maps_pixels_into_minus_one_one
              [[of_Z 0; of_Z 255]] 0%nat 1%nat [of_Z 0; of_Z 255] 255)
    as (_ & row' & v & Hr & _ & Hv & _ & _ & _ & H255).
  { reflexivity. }
  { reflexivity. }
  { lia. }
  exists row', v. split; [exact Hr|]. split; [exact Hv|].
  apply H255. reflexivity.
Defined.

Lemma print_website_only_prints_witness :
  (Mnist.print_website sklearn_ok ∅ 7%nat).1.1 =
    [Stdout Mnist.table_head; Stdout "</tbody>"; Stdout "</table>"].
Proof.
  destruct (TableFacts.print_website_only_prints sklearn_ok ∅ 7%nat)
    as (_ & _ & _ & _ & H).
  exact (H eq_refl).
Defined.

Lemma nan_and_threshold_values_are_not_marked_witness :
  MnistOrder.table_row sklearn_ok
    ("k nn", {| Mnist.training_time := of_Z 1;
                Mnist.testing_time := of_Z 5;
                Mnist.accuracy := S754_nan |}) =
  MnistOrder.row_lines sklearn_ok "" ""
    ("k nn", {| Mnist.training_time := of_Z 1;
                Mnist.testing_time := of_Z 5;
                Mnist.accuracy := S754_nan |}).
Proof.
  apply TableFacts.nan_and_threshold_values_are_not_marked.
  - left. reflexivity.
  - right. reflexivity.
Defined.

Lemma report_goes_to_stdout_witness :
  result_of (Mnist.main sklearn_ok) = Ok tt ∧
  MnistOrder.count MnistOrder.is_matrix_line (trace_of (Mnist.main sklearn_ok))
    = 12%nat ∧
  ∃ d, Mnist.training_time d = of_Z 2 ∧ Mnist.testing_time d = of_Z 2 ∧
       Mnist.accuracy d = lit 5 1.
Proof.
  assert (H : result_of (Mnist.main sklearn_ok) = Ok tt)
    by (vm_compute; reflexivity).
  split; [exact H|].
  destruct (proj2 (ReportFacts.report_goes_to_stdout sklearn_ok) H)
    as (data & cd & h0 & Hd & _ & _ & _ & Hc & _ & Hrows).
  split; [exact Hc|].
  vm_compute in Hd. injection Hd as <-.
  destruct (Hrows 3%nat
              ("adj. SVM",
               SVC (Some false) "rbf" (lit 28 1) (Some (lit 73 4)) 2000)
              eq_refl)
    as (y_pred & line & d & t1 & t2 & (clf & cm & _ & _ & _ & _ & Ha & Htr & Hte)
        & _).
  exists d. split; [|split].
  - rewrite Htr. vm_compute. reflexivity.
  - rewrite Hte. vm_compute. reflexivity.
  - injection Ha as <-. reflexivity.
Defined.

End MoreWitnesses.
